(** * clean_data.py: the NOAA weather cleaning pipeline

    A shallow embedding of [src/clean_data.py] and of the parts of numpy and
    pandas it calls, followed by the properties of the pipeline.

    Conventions of the model.
    - A float64 has two models.  In [np.double] it is NaN, one of the two
      infinities, or a finite number, and finite numbers are exact:
      arithmetic is not rounded, [np.pi] is the number pi and [np.sin],
      [np.cos] are the real sine and cosine; a finite number that comes from
      a literal or from rational arithmetic is kept as a rational ([Rat]), so
      the pipeline computes inside Rocq, and one that comes from pi or a
      trigonometric function is a real ([Real]).  The properties stated on
      it are those that rounding does not touch: which cells are missing,
      which values are kept, which rows and columns a table has.  In
      [float64] it is the binary64 number
      of the machine ([float]), whose operations round to nearest, ties to
      even, and [np.sin], [np.cos] are parameters.  The properties of the
      values that interpolation and the trigonometric functions compute are
      stated on it.
    - A Python exception is the [Raise] branch of [result]; the effects of
      [main] ([to_csv], [print]) are a list of events.
    - A [DataFrame] is a list of row labels and an association list of named
      columns, in the order of the file.  The cells of a freshly read table
      are strings, floats or integers; a column is a column of strings (dtype
      object) when one of its cells is a string, and numeric otherwise.
    - A timestamp is a number of nanoseconds since the epoch, as pandas
      stores it. *)

From Stdlib Require Import List String Ascii ZArith QArith Qreals Reals Lra Lia Bool.
From Stdlib Require Import Permutation Sorted.
From Stdlib Require Import Floats.
Import ListNotations.

Local Close Scope Q_scope.
Local Open Scope nat_scope.
Local Open Scope string_scope.
Local Open Scope list_scope.

(* ================================================================== *)
(** ** Python: exceptions, objects, strings *)

Inductive exn : Type :=
| ValueError
| KeyError (key : string)
| IndexError
| AttributeError.

Inductive result (A : Type) : Type :=
| Ok (a : A)
| Raise (e : exn).
Arguments Ok {A} a.
Arguments Raise {A} e.

Definition bind {A B : Type} (m : result A) (k : A -> result B) : result B :=
  match m with
  | Ok a => k a
  | Raise e => Raise e
  end.

Notation "x <- m ;; k" := (bind m (fun x => k))
  (at level 61, m at next level, right associativity).
Notation "' p <- m ;; k" := (bind m (fun p => k))
  (at level 61, p pattern, m at next level, right associativity).

(** [try: body except: handler] with a bare [except], which catches every
    exception. *)
Definition try_except {A : Type} (body : result A) (handler : result A) : result A :=
  match body with
  | Ok a => Ok a
  | Raise _ => handler
  end.

(** [for x in l: f x], collecting the values; the first exception stops it. *)
Fixpoint mapM {A B : Type} (f : A -> result B) (l : list A) : result (list B) :=
  match l with
  | [] => Ok []
  | x :: tl => y <- f x ;; ys <- mapM f tl ;; Ok (y :: ys)
  end.

Module str.

(** [s.split(sep)] for a separator of one character: every occurrence cuts. *)
Fixpoint split (sep : ascii) (s : string) : list string :=
  match s with
  | EmptyString => [EmptyString]
  | String c s' =>
      if Ascii.eqb c sep then EmptyString :: split sep s'
      else match split sep s' with
           | [] => [String c EmptyString]
           | piece :: pieces => String c piece :: pieces
           end
  end.

(** The number of occurrences of one character. *)
Fixpoint count (c : ascii) (s : string) : nat :=
  match s with
  | EmptyString => 0
  | String c' s' => (if Ascii.eqb c' c then 1 else 0) + count c s'
  end.

End str.

(** [a, b = l]: unpacking into two targets needs exactly two values. *)
Definition unpack2 {A : Type} (l : list A) : result (A * A) :=
  match l with
  | [a; b] => Ok (a, b)
  | _ => Raise ValueError
  end.

(* ================================================================== *)
(** ** numpy *)

Module np.

Inductive finite : Type :=
| Rat (q : Q)
| Real (r : R).

Definition toR (u : finite) : R :=
  match u with
  | Rat q => Q2R q
  | Real r => r
  end.

Inductive double : Type :=
| NaN
| NInf
| PInf
| Fin (u : finite).

Definition nan : double := NaN.
Definition of_Z (z : Z) : double := Fin (Rat (inject_Z z)).
Definition of_nat (n : nat) : double := of_Z (Z.of_nat n).
Definition pi : double := Fin (Real PI).

Definition isnan (x : double) : bool :=
  match x with
  | NaN => true
  | _ => false
  end.

(** *** Finite numbers *)

Definition fin_ltb (u v : finite) : bool :=
  match u, v with
  | Rat a, Rat b => negb (Qle_bool b a)
  | _, _ => if Rlt_dec (toR u) (toR v) then true else false
  end.

Definition fin_leb (u v : finite) : bool :=
  match u, v with
  | Rat a, Rat b => Qle_bool a b
  | _, _ => if Rle_dec (toR u) (toR v) then true else false
  end.

Definition fin_eqb (u v : finite) : bool :=
  match u, v with
  | Rat a, Rat b => Qeq_bool a b
  | _, _ => if Req_dec_T (toR u) (toR v) then true else false
  end.

Definition fin_opp (u : finite) : finite :=
  match u with
  | Rat a => Rat (- a)
  | Real r => Real (- r)
  end.

Definition fin_add (u v : finite) : finite :=
  match u, v with
  | Rat a, Rat b => Rat (a + b)
  | _, _ => Real (toR u + toR v)
  end.

Definition fin_mul (u v : finite) : finite :=
  match u, v with
  | Rat a, Rat b => Rat (a * b)
  | _, _ => Real (toR u * toR v)
  end.

Definition fin_div (u v : finite) : finite :=
  match u, v with
  | Rat a, Rat b => Rat (a / b)
  | _, _ => Real (toR u / toR v)
  end.

Definition zero : finite := Rat 0.

(** *** IEEE comparisons: every comparison with NaN is false *)

Definition ltb (x y : double) : bool :=
  match x, y with
  | NaN, _ | _, NaN => false
  | NInf, NInf => false
  | NInf, _ => true
  | _, NInf => false
  | PInf, _ => false
  | Fin _, PInf => true
  | Fin u, Fin v => fin_ltb u v
  end.

Definition gtb (x y : double) : bool := ltb y x.

Definition leb (x y : double) : bool :=
  match x, y with
  | NaN, _ | _, NaN => false
  | NInf, _ => true
  | _, PInf => true
  | _, NInf => false
  | PInf, _ => false
  | Fin u, Fin v => fin_leb u v
  end.

Definition eqb (x y : double) : bool :=
  match x, y with
  | NInf, NInf => true
  | PInf, PInf => true
  | Fin u, Fin v => fin_eqb u v
  | _, _ => false
  end.

(** *** IEEE arithmetic, unrounded (zeros are unsigned) *)

Definition neg (x : double) : double :=
  match x with
  | NaN => NaN
  | NInf => PInf
  | PInf => NInf
  | Fin u => Fin (fin_opp u)
  end.

Definition add (x y : double) : double :=
  match x, y with
  | NaN, _ | _, NaN => NaN
  | PInf, NInf | NInf, PInf => NaN
  | PInf, _ | _, PInf => PInf
  | NInf, _ | _, NInf => NInf
  | Fin u, Fin v => Fin (fin_add u v)
  end.

Definition sub (x y : double) : double := add x (neg y).

(** The infinity whose sign is the sign of [u]; NaN when [u] is zero. *)
Definition inf_like (u : finite) (positive : bool) : double :=
  if fin_eqb u zero then NaN
  else if Bool.eqb (fin_ltb zero u) positive then PInf else NInf.

Definition mul (x y : double) : double :=
  match x, y with
  | NaN, _ | _, NaN => NaN
  | PInf, PInf | NInf, NInf => PInf
  | PInf, NInf | NInf, PInf => NInf
  | PInf, Fin u | Fin u, PInf => inf_like u true
  | NInf, Fin u | Fin u, NInf => inf_like u false
  | Fin u, Fin v => Fin (fin_mul u v)
  end.

Definition div (x y : double) : double :=
  match x, y with
  | NaN, _ | _, NaN => NaN
  | Fin _, PInf | Fin _, NInf => Fin zero
  | Fin u, Fin v =>
      if fin_eqb v zero then inf_like u true else Fin (fin_div u v)
  | PInf, Fin v => if fin_ltb v zero then NInf else PInf
  | NInf, Fin v => if fin_ltb v zero then PInf else NInf
  | _, _ => NaN
  end.

(** *** Elementary functions *)

Definition sin (x : double) : double :=
  match x with
  | Fin u => Fin (Real (Rtrigo_def.sin (toR u)))
  | _ => NaN
  end.

Definition cos (x : double) : double :=
  match x with
  | Fin u => Fin (Real (Rtrigo_def.cos (toR u)))
  | _ => NaN
  end.

End np.

(** A Python object as a cell of a freshly read table holds it. *)
Inductive pyobj : Type :=
| PyStr (s : string)
| PyFloat (x : np.double)
| PyInt (z : Z).

(* ================================================================== *)
(** ** pandas *)

Definition Timestamp : Type := Z.

Record DataFrame (A : Type) : Type := mkDataFrame {
  index : list Timestamp;
  columns : list (string * list A)
}.
Arguments mkDataFrame {A} index columns.
Arguments index {A} d.
Arguments columns {A} d.

(** The names of the columns, in order. *)
Definition names {A : Type} (d : DataFrame A) : list string := map fst (columns d).

Module pd.

Section Frames.
Context {A : Type}.

(** [df[name]] *)
Fixpoint lookup (name : string) (cols : list (string * list A)) : option (list A) :=
  match cols with
  | [] => None
  | (n, c) :: tl => if String.eqb n name then Some c else lookup name tl
  end.

Definition getitem (df : DataFrame A) (name : string) : result (list A) :=
  match lookup name (columns df) with
  | Some c => Ok c
  | None => Raise (KeyError name)
  end.

(** [df[name] = values]: an existing column is replaced where it stands, a
    new one is appended. *)
Fixpoint assign (name : string) (values : list A) (cols : list (string * list A))
  : list (string * list A) :=
  match cols with
  | [] => [(name, values)]
  | (n, c) :: tl =>
      if String.eqb n name then (n, values) :: tl
      else (n, c) :: assign name values tl
  end.

Definition setitem (df : DataFrame A) (name : string) (values : list A) : DataFrame A :=
  mkDataFrame (index df) (assign name values (columns df)).

(** [df.drop([name], axis=1)] *)
Definition drop_column (df : DataFrame A) (name : string) : result (DataFrame A) :=
  match lookup name (columns df) with
  | None => Raise (KeyError name)
  | Some _ =>
      Ok (mkDataFrame (index df)
            (filter (fun nc => negb (String.eqb (fst nc) name)) (columns df)))
  end.

(** Every column through [f]. *)
Definition map_columns {B : Type} (f : list A -> list B) (df : DataFrame A) : DataFrame B :=
  mkDataFrame (index df) (map (fun nc => (fst nc, f (snd nc))) (columns df)).

(** [s[mask] = value] *)
Fixpoint mask_set (mask : list bool) (value : A) (s : list A) : list A :=
  match mask, s with
  | b :: mask', x :: s' => (if b then value else x) :: mask_set mask' value s'
  | _, _ => s
  end.

(** [df.loc[mask, name] = value] *)
Definition loc_set (df : DataFrame A) (mask : list bool) (name : string) (value : A)
  : result (DataFrame A) :=
  s <- getitem df name ;;
  Ok (setitem df name (mask_set mask value s)).

(** The rows of [s] whose flag in [keep] is set. *)
Fixpoint select {X : Type} (keep : list bool) (s : list X) : list X :=
  match keep, s with
  | b :: keep', x :: s' => if b then x :: select keep' s' else select keep' s'
  | _, _ => []
  end.

(** [df.index[0]] *)
Definition first_label (df : DataFrame A) : result Timestamp :=
  match index df with
  | [] => Raise IndexError
  | t :: _ => Ok t
  end.

(** [df.index[-1]] *)
Definition last_label (df : DataFrame A) : result Timestamp :=
  match index df with
  | [] => Raise IndexError
  | t :: tl => Ok (last tl t)
  end.

(** [df.drop(label)]: every row that carries the label goes. *)
Definition drop_label (df : DataFrame A) (label : Timestamp) : DataFrame A :=
  let keep := map (fun t => negb (Z.eqb t label)) (index df) in
  mkDataFrame (select keep (index df))
              (map (fun nc => (fst nc, select keep (snd nc))) (columns df)).

(** [s.shift(periods=1)]: the values move down one row, the first row gets
    [fill] and the last value leaves. *)
Definition shift1 (fill : A) (s : list A) : list A :=
  match s with
  | [] => []
  | _ :: _ => fill :: removelast s
  end.

(** A stable sort of rows by a key (resample sorts an index that is not
    monotonic with a stable sort). *)
Fixpoint insert_row {X : Type} (key : X -> Z) (r : X) (l : list X) : list X :=
  match l with
  | [] => [r]
  | r' :: tl => if Z.leb (key r) (key r') then r :: l else r' :: insert_row key r tl
  end.

Definition sort_rows {X : Type} (key : X -> Z) (l : list X) : list X :=
  fold_right (insert_row key) [] l.

End Frames.

(** *** Resampling *)

(** 60 minutes, in nanoseconds. *)
Definition hour : Z := 3600000000000.

(** The hourly bin of a timestamp, counted from the epoch. *)
Definition bin_of (freq : Z) (t : Timestamp) : Z := (t / freq)%Z.

(** The bins of the resampled table: every one from the bin of the earliest
    row to the bin of the latest row, empty ones included. *)
Definition bins (freq : Z) (ts : list Timestamp) : list Z :=
  match sort_rows (fun t => t) ts with
  | [] => []
  | t0 :: tl =>
      let lo := bin_of freq t0 in
      let hi := bin_of freq (last tl t0) in
      map (fun i => (lo + Z.of_nat i)%Z) (seq 0 (Z.to_nat (hi - lo + 1)))
  end.

(** [GroupBy.last]: the last value of the group that is not NaN. *)
Fixpoint last_valid (group : list np.double) : np.double :=
  match group with
  | [] => np.NaN
  | x :: tl =>
      match last_valid tl with
      | np.NaN => x
      | y => y
      end
  end.

(** The values of a column that fall in bin [b], in time order. *)
Definition group {A : Type} (freq : Z) (ts : list Timestamp) (s : list A) (b : Z) : list A :=
  map snd (filter (fun r => Z.eqb (bin_of freq (fst r)) b)
                  (sort_rows fst (combine ts s))).

(** [df.resample(freq).last()] *)
Definition resample_last (freq : Z) (df : DataFrame np.double) : DataFrame np.double :=
  let bs := bins freq (index df) in
  mkDataFrame
    (map (fun b => (b * freq)%Z) bs)
    (map (fun nc =>
            (fst nc, map (fun b => last_valid (group freq (index df) (snd nc) b)) bs))
         (columns df)).

(** [df.shift(periods=1)] *)
Definition shift (df : DataFrame np.double) : DataFrame np.double :=
  map_columns (shift1 np.NaN) df.

(** *** Filling gaps *)

(** [s.fillna(method='ffill')] *)
Fixpoint ffill_from (prev : np.double) (s : list np.double) : list np.double :=
  match s with
  | [] => []
  | x :: tl =>
      if np.isnan x then prev :: ffill_from prev tl
      else x :: ffill_from x tl
  end.

Definition ffill (s : list np.double) : list np.double := ffill_from np.NaN s.

(** The distance to, and the value of, the first entry that is not NaN. *)
Fixpoint next_valid (s : list np.double) : option (nat * np.double) :=
  match s with
  | [] => None
  | x :: tl =>
      if np.isnan x then
        match next_valid tl with
        | Some (d, y) => Some (S d, y)
        | None => None
        end
      else Some (0, x)
  end.

(** The value numpy's [interp] gives [k] rows after a valid value [a] when
    the next valid value [b] stands [gap] rows after [a]. *)
Definition interp_point (a b : np.double) (gap k : nat) : np.double :=
  let slope := np.div (np.sub b a) (np.of_nat gap) in
  np.add (np.mul slope (np.of_nat k)) a.

(** [s.interpolate(method='linear')] with the defaults: by row position,
    forward only.  NaN before the first valid value stays; NaN after the last
    valid value takes that value; NaN between two valid values is
    interpolated.  [prev] is the last valid value seen and [k] the number of
    rows since. *)
Fixpoint interpolate_from (prev : option np.double) (k : nat) (s : list np.double)
  : list np.double :=
  match s with
  | [] => []
  | x :: tl =>
      if np.isnan x then
        match prev with
        | None => np.NaN
        | Some a =>
            match next_valid tl with
            | None => a
            | Some (d, b) => interp_point a b (k + S d) k
            end
        end :: interpolate_from prev (S k) tl
      else x :: interpolate_from (Some x) 1 tl
  end.

Definition interpolate_linear (s : list np.double) : list np.double :=
  interpolate_from None 0 s.

(** [df.interpolate(method='linear')] *)
Definition interpolate (df : DataFrame np.double) : DataFrame np.double :=
  map_columns interpolate_linear df.

(** *** Cells *)

(** [s.replace(to_replace=a, value=v)] for a string [a]: the cells that are
    the string [a]. *)
Definition replace_cell (a : string) (v : pyobj) (c : pyobj) : pyobj :=
  match c with
  | PyStr s => if String.eqb s a then v else c
  | _ => c
  end.

Definition replace (a : string) (v : pyobj) (s : list pyobj) : list pyobj :=
  map (replace_cell a v) s.

Definition is_str (c : pyobj) : bool :=
  match c with
  | PyStr _ => true
  | _ => false
  end.

(** [s.str]: a column of strings has the accessor; a column in which no cell
    is a string is a numeric column, and asking it raises AttributeError. *)
Definition str_accessor (s : list pyobj) : result (list pyobj) :=
  if existsb is_str s then Ok s else Raise AttributeError.

(** [s.str.count(c)] for a pattern that is one (escaped) character: NaN
    where the cell is not a string. *)
Definition str_count (c : ascii) (s : list pyobj) : result (list np.double) :=
  s <- str_accessor s ;;
  Ok (map (fun x => match x with
                    | PyStr t => np.of_nat (str.count c t)
                    | _ => np.NaN
                    end) s).

(** [s.astype('float32')]; the exact model has no precision to lose. *)
Definition astype_float32 (s : list np.double) : list np.double := s.

End pd.

(* ================================================================== *)
(** ** clean_data.py *)

(** [args]: the parsed command line ([-f/--filepath], [-v/--verbose]). *)
Record Namespace : Type := mkNamespace {
  filepath : string;
  verbose : bool
}.


(** What a [print] shows after its text. *)
Inductive shown : Type :=
| ShowNothing
| ShowInt (z : Z)
| ShowTimestamp (t : Timestamp)
| ShowRound2 (q : Q).

(** The effects of a run: a file written by [to_csv] (with
    [float_format='%g']) and lines printed. *)
Inductive event : Type :=
| to_csv (path : string) (df : DataFrame np.double)
| print (text : string) (value : shown).

(** A computation that leaves events and ends normally or with an exception. *)
Definition IO (A : Type) : Type := list event * result A.

Definition ret {A : Type} (a : A) : IO A := ([], Ok a).

Definition lift {A : Type} (r : result A) : IO A := ([], r).

Definition emit (e : event) : IO unit := ([e], Ok tt).

Definition bindIO {A B : Type} (m : IO A) (k : A -> IO B) : IO B :=
  match m with
  | (evs, Ok a) => let (evs', r) := k a in (evs ++ evs', r)
  | (evs, Raise e) => (evs, Raise e)
  end.

Notation "x <~ m ;; k" := (bindIO m (fun x => k))
  (at level 61, m at next level, right associativity).
Notation "' p <~ m ;; k" := (bindIO m (fun p => k))
  (at level 61, p pattern, m at next level, right associativity).

Definition is_print (e : event) : Prop := exists text value, e = print text value.

(** The column of a name, empty when the table has none of that name. *)
Definition column {A : Type} (d : DataFrame A) (name : string) : list A :=
  match pd.lookup name (columns d) with
  | Some s => s
  | None => []
  end.

(** The files a run wrote, in order. *)
Definition files_written {A : Type} (run : IO A) : list (string * DataFrame np.double) :=
  flat_map (fun e => match e with
                     | to_csv path df => [(path, df)]
                     | print _ _ => []
                     end) (fst run).

(** [x in l] for a float [x] and a list of integer literals. *)
Definition contains (x : np.double) (l : list Z) : bool :=
  existsb (fun k => np.eqb x (np.of_Z k)) l.

(** One day, in nanoseconds, and [Timedelta.days]. *)
Definition day : Z := (24 * pd.hour)%Z.
Definition days (delta : Z) : Z := (delta / day)%Z.

Section Pipeline.

(** numpy's reading of a string as a float64; [None] where it raises
    [ValueError]. *)
Variable strtod : string -> option np.double.

(** [sys.getsizeof] on a table. *)
Variable getsizeof : DataFrame np.double -> Z.

(** [np.float64(value)] *)
Definition np_float64 (value : pyobj) : result np.double :=
  match value with
  | PyStr s =>
      match strtod s with
      | Some x => Ok x
      | None => Raise ValueError
      end
  | PyFloat x => Ok x
  | PyInt z => Ok (np.of_Z z)
  end.

(** Lines 17-25; the second parameter, [dt], is never read. *)
Definition tryconvert (value : pyobj) : result np.double :=
  try_except (np_float64 value) (Ok np.nan).

(** What lines 17-25 make of a value: the float it parses to, NaN where
    [np.float64] raises. *)
Definition coerced (value : pyobj) : np.double :=
  match np_float64 value with
  | Ok x => x
  | Raise _ => np.nan
  end.

(** Lines 49-54: the sentinel, the trace marker and the tokens with two
    decimal points. *)
Definition replace_markers (data_weather : DataFrame pyobj) : result (DataFrame pyobj) :=
  (* 50 *)
  let data_weather := pd.map_columns (pd.replace "*" (PyFloat np.nan)) data_weather in
  (* 52 *)
  precip <- pd.getitem data_weather "HOURLYPrecip" ;;
  let data_weather :=
    pd.setitem data_weather "HOURLYPrecip" (pd.replace "T" (PyStr "0.00") precip) in
  (* 54 *)
  precip <- pd.getitem data_weather "HOURLYPrecip" ;;
  counts <- pd.str_count "." precip ;;
  let mask := map (fun n => np.gtb n (np.of_Z 1)) counts in
  pd.loc_set data_weather mask "HOURLYPrecip" (PyFloat np.nan).

(** Whether a column still holds a string after line 50, that is, whether it
    holds a string other than the sentinel. *)
Definition strings_left (s : list pyobj) : bool :=
  existsb pd.is_str (pd.replace "*" (PyFloat np.nan) s).

(** What lines 50, 52 and 54 make of a cell of HOURLYPrecip. *)
Definition precip_cell (c : pyobj) : pyobj :=
  let c := pd.replace_cell "T" (PyStr "0.00") (pd.replace_cell "*" (PyFloat np.nan) c) in
  match c with
  | PyStr s => if np.gtb (np.of_nat (str.count "." s)) (np.of_Z 1) then PyFloat np.nan else c
  | _ => c
  end.

(** Lines 56-58: every cell of every column through [tryconvert]. *)
Definition convert_to_float (data_weather : DataFrame pyobj) : result (DataFrame np.double) :=
  cols <- mapM (fun nc => c <- mapM tryconvert (snd nc) ;; Ok (fst nc, c))
               (columns data_weather) ;;
  Ok (mkDataFrame (index data_weather) cols).

(** Lines 60-61. *)
Definition bound_visibility (data_weather : DataFrame np.double)
  : result (DataFrame np.double) :=
  visibility <- pd.getitem data_weather "HOURLYVISIBILITY" ;;
  let mask := map (fun x => np.gtb x (np.of_Z 10) || np.ltb x (np.of_Z 0)) visibility in
  pd.loc_set data_weather mask "HOURLYVISIBILITY" np.nan.

(** Lines 63-64. *)
Definition downsample (data_weather : DataFrame np.double) : DataFrame np.double :=
  pd.shift (pd.resample_last pd.hour data_weather).

(** Lines 66-68. *)
Definition interpolate_missing (data_weather : DataFrame np.double)
  : result (DataFrame np.double) :=
  (* 67 *)
  tendency <- pd.getitem data_weather "HOURLYPressureTendency" ;;
  let data_weather := pd.setitem data_weather "HOURLYPressureTendency" (pd.ffill tendency) in
  (* 68 *)
  Ok (pd.interpolate data_weather).

(** Line 69. *)
Definition drop_first_row (data_weather : DataFrame np.double)
  : result (DataFrame np.double) :=
  label <- pd.first_label data_weather ;;
  Ok (pd.drop_label data_weather label).

(** [x*(2.*np.pi/360)] *)
Definition radians (x : np.double) : np.double :=
  np.mul x (np.div (np.mul (np.of_Z 2) np.pi) (np.of_Z 360)).

(** Lines 71-74. *)
Definition encode_wind_direction (data_weather : DataFrame np.double)
  : result (DataFrame np.double) :=
  direction <- pd.getitem data_weather "HOURLYWindDirection" ;;
  let data_weather :=
    pd.setitem data_weather "HOURLYWindDirectionSin"
               (map (fun x => np.sin (radians x)) direction) in
  direction <- pd.getitem data_weather "HOURLYWindDirection" ;;
  let data_weather :=
    pd.setitem data_weather "HOURLYWindDirectionCos"
               (map (fun x => np.cos (radians x)) direction) in
  pd.drop_column data_weather "HOURLYWindDirection".

Definition one : np.double := np.of_Z 1.
Definition zero : np.double := np.of_Z 0.

(** The three list comprehensions of lines 77-79, for one value. *)
Definition Incr (x : np.double) : np.double := if contains x [0; 1; 2; 3]%Z then one else zero.
Definition Decr (x : np.double) : np.double := if contains x [5; 6; 7; 8]%Z then one else zero.
Definition Cons (x : np.double) : np.double := if np.eqb x (np.of_Z 4) then one else zero.

(** Missing, or within the bounds 0 and 10 of a visibility. *)
Definition missing_or_within (x : np.double) : bool :=
  np.isnan x || (np.leb (np.of_Z 0) x && np.leb x (np.of_Z 10)).

Definition within (x : np.double) : Prop := missing_or_within x = true.

(** How many of the values equal 1.0. *)
Definition count_ones (l : list np.double) : nat :=
  List.length (filter (fun v => np.eqb v one) l).

(** Lines 76-83. *)
Definition encode_pressure_tendency (data_weather : DataFrame np.double)
  : result (DataFrame np.double) :=
  (* 77 *)
  tendency <- pd.getitem data_weather "HOURLYPressureTendency" ;;
  let data_weather := pd.setitem data_weather "HOURLYPressureTendencyIncr" (map Incr tendency) in
  (* 78 *)
  tendency <- pd.getitem data_weather "HOURLYPressureTendency" ;;
  let data_weather := pd.setitem data_weather "HOURLYPressureTendencyDecr" (map Decr tendency) in
  (* 79 *)
  tendency <- pd.getitem data_weather "HOURLYPressureTendency" ;;
  let data_weather := pd.setitem data_weather "HOURLYPressureTendencyCons" (map Cons tendency) in
  (* 80 *)
  data_weather <- pd.drop_column data_weather "HOURLYPressureTendency" ;;
  (* 81 *)
  c <- pd.getitem data_weather "HOURLYPressureTendencyIncr" ;;
  let data_weather := pd.setitem data_weather "HOURLYPressureTendencyIncr" (pd.astype_float32 c) in
  (* 82 *)
  c <- pd.getitem data_weather "HOURLYPressureTendencyDecr" ;;
  let data_weather := pd.setitem data_weather "HOURLYPressureTendencyDecr" (pd.astype_float32 c) in
  (* 83 *)
  c <- pd.getitem data_weather "HOURLYPressureTendencyCons" ;;
  Ok (pd.setitem data_weather "HOURLYPressureTendencyCons" (pd.astype_float32 c)).

(** Lines 49-61: the table that line 64 resamples. *)
Definition normalize (data_weather : DataFrame pyobj) : result (DataFrame np.double) :=
  data_weather <- replace_markers data_weather ;;
  data_weather <- convert_to_float data_weather ;;
  bound_visibility data_weather.

(** Lines 49-69: the table before the two encodings. *)
Definition fill (data_weather : DataFrame pyobj) : result (DataFrame np.double) :=
  data_weather <- normalize data_weather ;;
  data_weather <- interpolate_missing (downsample data_weather) ;;
  drop_first_row data_weather.

(** Lines 49-83: the cleaned table. *)
Definition clean (data_weather : DataFrame pyobj) : result (DataFrame np.double) :=
  data_weather <- fill data_weather ;;
  data_weather <- encode_wind_direction data_weather ;;
  encode_pressure_tendency data_weather.

(** Line 86. *)
Definition output_path (path : string) : result string :=
  '(file_name, extension) <- unpack2 (str.split "." path) ;;
  Ok (file_name ++ "_cleaned.csv")%string.

(** Lines 89-98. *)
Definition report (data_weather : DataFrame np.double) : IO unit :=
  _ <~ emit (print "Data successfully cleaned, below are some stats:" ShowNothing) ;;
  _ <~ emit (print "# of megabytes held by dataframe: "
                   (ShowRound2 (inject_Z (getsizeof data_weather) / 1000000))) ;;
  _ <~ emit (print "# of features: " (ShowInt (Z.of_nat (List.length (columns data_weather))))) ;;
  _ <~ emit (print "# of observations: " (ShowInt (Z.of_nat (List.length (index data_weather))))) ;;
  first <~ lift (pd.first_label data_weather) ;;
  _ <~ emit (print "Start date: " (ShowTimestamp first)) ;;
  last <~ lift (pd.last_label data_weather) ;;
  _ <~ emit (print "End date: " (ShowTimestamp last)) ;;
  _ <~ emit (print "# of days: " (ShowInt (days (last - first)))) ;;
  _ <~ emit (print "# of months: " (ShowRound2 (inject_Z (days (last - first)) / 30))) ;;
  emit (print "# of years: " (ShowRound2 (inject_Z (days (last - first)) / 365))).

(** Lines 27-98, from the table that lines 45-47 read: the columns of
    [import_columns] other than DATE, indexed by DATE. *)
Definition main (args : Namespace) (data_weather : DataFrame pyobj) : IO unit :=
  data_weather <~ lift (clean data_weather) ;;
  path <~ lift (output_path (filepath args)) ;;
  _ <~ emit (to_csv path data_weather) ;;
  if verbose args then report data_weather else ret tt.

End Pipeline.

(* ================================================================== *)
(** ** A parser and a table to run the pipeline on *)

Definition digit (c : ascii) : option Z :=
  let n := nat_of_ascii c in
  if Nat.leb 48 n && Nat.leb n 57 then Some (Z.of_nat (n - 48)) else None.

(** The digits of a plain decimal literal: the integer they spell without
    the point, and the number of digits after the point. *)
Fixpoint scan (s : string) (m : Z) (seen_dot : bool) (frac : nat) (any : bool)
  : option (Z * nat) :=
  match s with
  | EmptyString => if any then Some (m, frac) else None
  | String c s' =>
      if Ascii.eqb c "." then
        if seen_dot then None else scan s' m true frac any
      else
        match digit c with
        | Some d => scan s' (10 * m + d)%Z seen_dot (if seen_dot then S frac else frac) true
        | None => None
        end
  end.

(** A reading of plain decimal literals (sign, digits, at most one point). *)
Definition decimal_literal (s : string) : option np.double :=
  let (negative, body) :=
    match s with
    | String "-" s' => (true, s')
    | String "+" s' => (false, s')
    | _ => (false, s)
    end in
  match scan body 0%Z false 0 false with
  | Some (m, frac) =>
      Some (np.Fin (np.Rat (Qmake (if negative then - m else m)
                                  (Z.to_pos (10 ^ Z.of_nat frac)))))
  | None => None
  end.

(** [m] minutes after 2020-01-01 00:00. *)
Definition minute (m : Z) : Timestamp := ((1577836800 + 60 * m) * 1000000000)%Z.

Definition num (n : Z) : pyobj := PyInt n.
Definition flt (n : Z) (d : positive) : pyobj := PyFloat (np.Fin (np.Rat (Qmake n d))).

(** Five observations over five hours, none in the third hour. *)
Definition sample : DataFrame pyobj :=
  mkDataFrame
    [minute 10; minute 50; minute 80; minute 210; minute 255]
    [ ("HOURLYVISIBILITY", [PyStr "*"; PyStr "5.00"; PyStr "12.00"; PyStr "10.00"; PyStr "8.00"]);
      ("HOURLYDRYBULBTEMPF", [num 40; num 41; num 42; num 45; num 44]);
      ("HOURLYWETBULBTEMPF", [num 38; num 38; num 39; num 41; num 40]);
      ("HOURLYDewPointTempF", [num 35; num 35; num 36; num 37; num 36]);
      ("HOURLYRelativeHumidity", [num 82; num 79; num 79; num 73; num 73]);
      ("HOURLYWindSpeed", [num 7; num 8; num 0; num 11; num 9]);
      ("HOURLYWindDirection", [num 370; num 10; num 90; num 180; num 270]);
      ("HOURLYStationPressure",
        [flt 2999 100; flt 2998 100; flt 2998 100; flt 2995 100; flt 2994 100]);
      ("HOURLYPressureTendency",
        [PyFloat np.NaN; flt 3 1; PyFloat np.NaN; flt 4 1; flt 8 1]);
      ("HOURLYSeaLevelPressure",
        [PyStr "30.01"; PyStr "30.00"; PyStr "30.00s"; PyStr "29.97"; PyStr "29.96"]);
      ("HOURLYPrecip", [PyStr "T"; PyStr "0.00.1"; PyStr "0.02"; PyStr "*"; PyStr "0.10"]);
      ("HOURLYAltimeterSetting",
        [flt 3001 100; flt 3000 100; flt 3000 100; flt 2997 100; flt 2996 100]) ].

(** The first two observations only: one hour. *)
Definition sample_one_hour : DataFrame pyobj :=
  mkDataFrame (firstn 2 (index sample))
              (map (fun nc => (fst nc, firstn 2 (snd nc))) (columns sample)).

(** The sample with a precipitation column of numbers only, as [read_csv]
    gives it when every cell of the column parses. *)
Definition sample_dry : DataFrame pyobj :=
  pd.setitem sample "HOURLYPrecip" [flt 0 100; flt 0 100; flt 2 100; flt 0 100; flt 10 100].

Definition empty : DataFrame np.double := mkDataFrame [] [].

Definition or_empty (r : result (DataFrame np.double)) : DataFrame np.double :=
  match r with
  | Ok d => d
  | Raise _ => empty
  end.

(** The sample after line 61, after line 69 and after line 83. *)
Definition sample_normalized : DataFrame np.double := or_empty (normalize decimal_literal sample).
Definition sample_filled : DataFrame np.double := or_empty (fill decimal_literal sample).
Definition sample_cleaned : DataFrame np.double := or_empty (clean decimal_literal sample).

(** A tendency column with what forward fill, the input or a bad parse can
    leave in it: NaN, a fraction, a code out of 0-8, codes, an infinity. *)
Definition codes : DataFrame np.double :=
  mkDataFrame
    [minute 0; minute 60; minute 120; minute 180; minute 240; minute 300; minute 360]
    [ ("HOURLYPressureTendency",
        [np.NaN; np.Fin (np.Rat (Qmake 9 2)); np.of_Z 9; np.of_Z 2; np.of_Z 4; np.of_Z 7;
         np.PInf]) ].

(** No size is needed where nothing is printed. *)
Definition no_size (d : DataFrame np.double) : Z := 0%Z.

(** The sample after line 58, before the visibility is bounded. *)
Definition sample_converted : DataFrame np.double :=
  or_empty (data_weather <- replace_markers sample ;;
            convert_to_float decimal_literal data_weather).

(** The sample with a sea level pressure that does not parse in its first
    three observations. *)
Definition sample_late : DataFrame pyobj :=
  pd.setitem sample "HOURLYSeaLevelPressure"
    [PyStr "30.01s"; PyStr "30.00s"; PyStr "30.00s"; PyStr "29.97"; PyStr "29.96"].

(** The columns that lines 72-79 add, in the order in which they add them. *)
Definition derived_columns : list string :=
  [ "HOURLYWindDirectionSin";
    "HOURLYWindDirectionCos";
    "HOURLYPressureTendencyIncr";
    "HOURLYPressureTendencyDecr";
    "HOURLYPressureTendencyCons" ].

(** NaN or a finite number: no infinity. *)
Definition finite_or_nan (x : np.double) : bool :=
  match x with
  | np.NaN | np.Fin _ => true
  | _ => false
  end.

(* ================================================================== *)
(** ** The pipeline on binary64 numbers *)

(** The same lines of [clean_data.py], cell by cell and stage by stage, with
    the float64 of the machine in place of exact numbers: [float] is IEEE 754
    binary64 and its operations round to nearest, ties to even.  The
    properties that depend on what arithmetic gives (rounding, overflow, the
    infinities in numpy's [interp]) are stated on this model.  The shared
    parts of the model (exceptions, tables, [pd]'s functions on columns of
    any type) are those above. *)
Module float64.

Definition nan : float := PrimFloat.nan.

(** [np.isnan] *)
Definition isnan (x : float) : bool := PrimFloat.is_nan x.

(** The float64 nearest to an integer. *)
Definition of_Z (z : Z) : float := SF2Prim (binary_normalize prec emax z 0 false).
Definition of_nat (n : nat) : float := of_Z (Z.of_nat n).

(** [np.pi] *)
Definition pi : float := 0x1.921fb54442d18p+1%float.

Definition gtb (x y : float) : bool := PrimFloat.ltb y x.

(** The number a float stands for when it is finite, and 0 otherwise. *)
Definition toQ (x : float) : Q :=
  match Prim2SF x with
  | S754_finite s m e =>
      match e with
      | Zneg p => Qmake (cond_Zopp s (Zpos m)) (2 ^ p)
      | _ => inject_Z (cond_Zopp s (Zpos m) * 2 ^ e)
      end
  | _ => 0%Q
  end.

Definition toR (x : float) : R := Q2R (toQ x).

(** The nearest float32, kept as the float64 of the same value. *)
Definition to_float32 (x : float) : float :=
  match Prim2SF x with
  | S754_finite s m e =>
      match binary_round 24 128 s m e with
      | S754_finite s' m' e' =>
          SF2Prim (binary_normalize prec emax (cond_Zopp s' (Zpos m')) e' s')
      | y => SF2Prim y
      end
  | _ => x
  end.

(** A cell of a freshly read table: a string, a float64 or an int64. *)
Inductive pyobj : Type :=
| PyStr (s : string)
| PyFloat (x : float)
| PyInt (z : Z).

(** *** pandas on columns of float64 *)

(** [GroupBy.last]: the last value of the group that is not NaN. *)
Fixpoint last_valid (group : list float) : float :=
  match group with
  | [] => nan
  | x :: tl =>
      let y := last_valid tl in
      if isnan y then x else y
  end.

(** [df.resample(freq).last()] *)
Definition resample_last (freq : Z) (df : DataFrame float) : DataFrame float :=
  let bs := pd.bins freq (index df) in
  mkDataFrame
    (map (fun b => (b * freq)%Z) bs)
    (map (fun nc =>
            (fst nc, map (fun b => last_valid (pd.group freq (index df) (snd nc) b)) bs))
         (columns df)).

(** [df.shift(periods=1)] *)
Definition shift (df : DataFrame float) : DataFrame float :=
  pd.map_columns (pd.shift1 nan) df.

(** [s.fillna(method='ffill')] *)
Fixpoint ffill_from (prev : float) (s : list float) : list float :=
  match s with
  | [] => []
  | x :: tl =>
      if isnan x then prev :: ffill_from prev tl
      else x :: ffill_from x tl
  end.

Definition ffill (s : list float) : list float := ffill_from nan s.

(** The distance to, and the value of, the first entry that is not NaN. *)
Fixpoint next_valid (s : list float) : option (nat * float) :=
  match s with
  | [] => None
  | x :: tl =>
      if isnan x then
        match next_valid tl with
        | Some (d, y) => Some (S d, y)
        | None => None
        end
      else Some (0, x)
  end.

(** The value numpy's [interp] gives [k] rows after a valid value [a] when
    the next valid value [b] stands [gap] rows after [a]:
    [slope*(x - xp[j]) + fp[j]] with [slope] the quotient of the
    differences; when that is NaN, the same from the right end,
    [slope*(x - xp[j+1]) + fp[j+1]]; and when that is NaN too and the two
    ends are equal, their value.  The positions are row numbers, so their
    differences [k], [gap] and [k - gap] are exact. *)
Definition interp_point (a b : float) (gap k : nat) : float :=
  let slope := ((b - a) / of_nat gap)%float in
  let res := (slope * of_nat k + a)%float in
  if isnan res then
    let res := (slope * (of_nat k - of_nat gap) + b)%float in
    if isnan res && (a =? b)%float then a else res
  else res.

(** [s.interpolate(method='linear')] with the defaults: by row position,
    forward only.  NaN before the first valid value stays; NaN after the last
    valid value takes that value; NaN between two valid values is
    interpolated.  [prev] is the last valid value seen and [k] the number of
    rows since. *)
Fixpoint interpolate_from (prev : option float) (k : nat) (s : list float) : list float :=
  match s with
  | [] => []
  | x :: tl =>
      if isnan x then
        match prev with
        | None => nan
        | Some a =>
            match next_valid tl with
            | None => a
            | Some (d, b) => interp_point a b (k + S d) k
            end
        end :: interpolate_from prev (S k) tl
      else x :: interpolate_from (Some x) 1 tl
  end.

Definition interpolate_linear (s : list float) : list float := interpolate_from None 0 s.

(** [df.interpolate(method='linear')] *)
Definition interpolate (df : DataFrame float) : DataFrame float :=
  pd.map_columns interpolate_linear df.

(** [s.replace(to_replace=a, value=v)] for a string [a]. *)
Definition replace_cell (a : string) (v : pyobj) (c : pyobj) : pyobj :=
  match c with
  | PyStr s => if String.eqb s a then v else c
  | _ => c
  end.

Definition replace (a : string) (v : pyobj) (s : list pyobj) : list pyobj :=
  map (replace_cell a v) s.

Definition is_str (c : pyobj) : bool :=
  match c with
  | PyStr _ => true
  | _ => false
  end.

(** [s.str]: a column of strings has the accessor, and so has a column
    without rows; a column with rows in which no cell is a string is a
    numeric column, and asking it raises AttributeError. *)
Definition str_accessor (s : list pyobj) : result (list pyobj) :=
  match s with
  | [] => Ok s
  | _ :: _ => if existsb is_str s then Ok s else Raise AttributeError
  end.

(** [s.str.count(c)] for a pattern that is one (escaped) character: NaN
    where the cell is not a string. *)
Definition str_count (c : ascii) (s : list pyobj) : result (list float) :=
  s <- str_accessor s ;;
  Ok (map (fun x => match x with
                    | PyStr t => of_nat (str.count c t)
                    | _ => nan
                    end) s).

(** [s.astype('float32')] *)
Definition astype_float32 (s : list float) : list float := map to_float32 s.

(** [x in l] for a float [x] and a list of integer literals. *)
Definition contains (x : float) (l : list Z) : bool :=
  existsb (fun k => PrimFloat.eqb x (of_Z k)) l.

(** *** clean_data.py *)

Section Pipeline.

(** numpy's reading of a string as a float64; [None] where it raises
    [ValueError]. *)
Variable strtod : string -> option float.

(** [np.sin] and [np.cos] on a float64: the sine and cosine of the
    mathematical library numpy is built on. *)
Variables sin cos : float -> float.

(** [np.float64(value)] *)
Definition np_float64 (value : pyobj) : result float :=
  match value with
  | PyStr s =>
      match strtod s with
      | Some x => Ok x
      | None => Raise ValueError
      end
  | PyFloat x => Ok x
  | PyInt z => Ok (of_Z z)
  end.

(** Lines 17-25; the second parameter, [dt], is never read. *)
Definition tryconvert (value : pyobj) : result float :=
  try_except (np_float64 value) (Ok nan).

(** Lines 49-54. *)
Definition replace_markers (data_weather : DataFrame pyobj) : result (DataFrame pyobj) :=
  (* 50 *)
  let data_weather := pd.map_columns (replace "*" (PyFloat nan)) data_weather in
  (* 52 *)
  precip <- pd.getitem data_weather "HOURLYPrecip" ;;
  let data_weather :=
    pd.setitem data_weather "HOURLYPrecip" (replace "T" (PyStr "0.00") precip) in
  (* 54 *)
  precip <- pd.getitem data_weather "HOURLYPrecip" ;;
  counts <- str_count "." precip ;;
  let mask := map (fun n => gtb n 1) counts in
  pd.loc_set data_weather mask "HOURLYPrecip" (PyFloat nan).

(** Lines 56-58. *)
Definition convert_to_float (data_weather : DataFrame pyobj) : result (DataFrame float) :=
  cols <- mapM (fun nc => c <- mapM tryconvert (snd nc) ;; Ok (fst nc, c))
               (columns data_weather) ;;
  Ok (mkDataFrame (index data_weather) cols).

(** Lines 60-61. *)
Definition bound_visibility (data_weather : DataFrame float) : result (DataFrame float) :=
  visibility <- pd.getitem data_weather "HOURLYVISIBILITY" ;;
  let mask := map (fun x => gtb x 10 || PrimFloat.ltb x 0) visibility in
  pd.loc_set data_weather mask "HOURLYVISIBILITY" nan.

(** Lines 63-64. *)
Definition downsample (data_weather : DataFrame float) : DataFrame float :=
  shift (resample_last pd.hour data_weather).

(** Lines 66-68. *)
Definition interpolate_missing (data_weather : DataFrame float) : result (DataFrame float) :=
  (* 67 *)
  tendency <- pd.getitem data_weather "HOURLYPressureTendency" ;;
  let data_weather := pd.setitem data_weather "HOURLYPressureTendency" (ffill tendency) in
  (* 68 *)
  Ok (interpolate data_weather).

(** Line 69. *)
Definition drop_first_row (data_weather : DataFrame float) : result (DataFrame float) :=
  label <- pd.first_label data_weather ;;
  Ok (pd.drop_label data_weather label).

(** [x*(2.*np.pi/360)] *)
Definition radians (x : float) : float := (x * (2 * pi / 360))%float.

(** Lines 71-74. *)
Definition encode_wind_direction (data_weather : DataFrame float) : result (DataFrame float) :=
  direction <- pd.getitem data_weather "HOURLYWindDirection" ;;
  let data_weather :=
    pd.setitem data_weather "HOURLYWindDirectionSin"
               (map (fun x => sin (radians x)) direction) in
  direction <- pd.getitem data_weather "HOURLYWindDirection" ;;
  let data_weather :=
    pd.setitem data_weather "HOURLYWindDirectionCos"
               (map (fun x => cos (radians x)) direction) in
  pd.drop_column data_weather "HOURLYWindDirection".

(** The three list comprehensions of lines 77-79, for one value. *)
Definition Incr (x : float) : float := if contains x [0; 1; 2; 3]%Z then 1%float else 0%float.
Definition Decr (x : float) : float := if contains x [5; 6; 7; 8]%Z then 1%float else 0%float.
Definition Cons (x : float) : float := if PrimFloat.eqb x 4 then 1%float else 0%float.

(** Lines 76-83. *)
Definition encode_pressure_tendency (data_weather : DataFrame float)
  : result (DataFrame float) :=
  (* 77 *)
  tendency <- pd.getitem data_weather "HOURLYPressureTendency" ;;
  let data_weather := pd.setitem data_weather "HOURLYPressureTendencyIncr" (map Incr tendency) in
  (* 78 *)
  tendency <- pd.getitem data_weather "HOURLYPressureTendency" ;;
  let data_weather := pd.setitem data_weather "HOURLYPressureTendencyDecr" (map Decr tendency) in
  (* 79 *)
  tendency <- pd.getitem data_weather "HOURLYPressureTendency" ;;
  let data_weather := pd.setitem data_weather "HOURLYPressureTendencyCons" (map Cons tendency) in
  (* 80 *)
  data_weather <- pd.drop_column data_weather "HOURLYPressureTendency" ;;
  (* 81 *)
  c <- pd.getitem data_weather "HOURLYPressureTendencyIncr" ;;
  let data_weather := pd.setitem data_weather "HOURLYPressureTendencyIncr" (astype_float32 c) in
  (* 82 *)
  c <- pd.getitem data_weather "HOURLYPressureTendencyDecr" ;;
  let data_weather := pd.setitem data_weather "HOURLYPressureTendencyDecr" (astype_float32 c) in
  (* 83 *)
  c <- pd.getitem data_weather "HOURLYPressureTendencyCons" ;;
  Ok (pd.setitem data_weather "HOURLYPressureTendencyCons" (astype_float32 c)).

(** Lines 49-61: the table that line 64 resamples. *)
Definition normalize (data_weather : DataFrame pyobj) : result (DataFrame float) :=
  data_weather <- replace_markers data_weather ;;
  data_weather <- convert_to_float data_weather ;;
  bound_visibility data_weather.

(** Lines 49-69: the table before the two encodings. *)
Definition fill (data_weather : DataFrame pyobj) : result (DataFrame float) :=
  data_weather <- normalize data_weather ;;
  data_weather <- interpolate_missing (downsample data_weather) ;;
  drop_first_row data_weather.

(** Lines 49-83: the cleaned table, which line 87 writes. *)
Definition clean (data_weather : DataFrame pyobj) : result (DataFrame float) :=
  data_weather <- fill data_weather ;;
  data_weather <- encode_wind_direction data_weather ;;
  encode_pressure_tendency data_weather.

End Pipeline.

(** Within the bounds 0 and 10 of a visibility: [0 <= x <= 10]. *)
Definition within (x : float) : bool := PrimFloat.leb 0 x && PrimFloat.leb x 10.




(** The sine and cosine of the library are within [eps] of the real ones at
    the float [theta]. *)
Definition accurate (sin cos : float -> float) (eps : R) (theta : float) : Prop :=
  PrimFloat.is_finite (sin theta) = true /\
  PrimFloat.is_finite (cos theta) = true /\
  (Rabs (toR (sin theta) - Rtrigo_def.sin (toR theta)) <= eps)%R /\
  (Rabs (toR (cos theta) - Rtrigo_def.cos (toR theta)) <= eps)%R.

(** *** A parser and tables to run the pipeline on *)

(** A reading of plain decimal literals (sign, digits, at most one point):
    the integer the digits spell over the power of ten, rounded once. *)
Definition decimal_literal (s : string) : option float :=
  let (negative, body) :=
    match s with
    | String "-" s' => (true, s')
    | String "+" s' => (false, s')
    | _ => (false, s)
    end in
  match scan body 0%Z false 0 false with
  | Some (m, frac) =>
      Some (of_Z (if negative then - m else m) / of_Z (10 ^ Z.of_nat frac))%float
  | None => None
  end.

(** Taylor polynomials in place of the library's sine and cosine, to run the
    pipeline on a table: [terms] terms of the series, summed in float64. *)
Fixpoint series (terms : nat) (x2 term : float) (n : Z) : float :=
  match terms with
  | O => 0%float
  | S terms' =>
      (term + series terms' x2 (- (term * x2 / of_Z ((n + 1) * (n + 2)))) (n + 2))%float
  end.

Definition sin_series (x : float) : float := series 30 (x * x) x 1.
Definition cos_series (x : float) : float := series 30 (x * x) 1 0.

Definition num (n : Z) : pyobj := PyInt n.
Definition flt (n d : Z) : pyobj := PyFloat (of_Z n / of_Z d)%float.

(** Five observations over five hours, none in the third hour. *)
Definition sample : DataFrame pyobj :=
  mkDataFrame
    [minute 10; minute 50; minute 80; minute 210; minute 255]
    [ ("HOURLYVISIBILITY", [PyStr "*"; PyStr "5.00"; PyStr "12.00"; PyStr "10.00"; PyStr "8.00"]);
      ("HOURLYDRYBULBTEMPF", [num 40; num 41; num 42; num 45; num 44]);
      ("HOURLYWETBULBTEMPF", [num 38; num 38; num 39; num 41; num 40]);
      ("HOURLYDewPointTempF", [num 35; num 35; num 36; num 37; num 36]);
      ("HOURLYRelativeHumidity", [num 82; num 79; num 79; num 73; num 73]);
      ("HOURLYWindSpeed", [num 7; num 8; num 0; num 11; num 9]);
      ("HOURLYWindDirection", [num 370; num 10; num 90; num 180; num 270]);
      ("HOURLYStationPressure",
        [flt 2999 100; flt 2998 100; flt 2998 100; flt 2995 100; flt 2994 100]);
      ("HOURLYPressureTendency",
        [PyFloat nan; flt 3 1; PyFloat nan; flt 4 1; flt 8 1]);
      ("HOURLYSeaLevelPressure",
        [PyStr "30.01"; PyStr "30.00"; PyStr "30.00s"; PyStr "29.97"; PyStr "29.96"]);
      ("HOURLYPrecip", [PyStr "T"; PyStr "0.00.1"; PyStr "0.02"; PyStr "*"; PyStr "0.10"]);
      ("HOURLYAltimeterSetting",
        [flt 3001 100; flt 3000 100; flt 3000 100; flt 2997 100; flt 2996 100]) ].



Definition empty : DataFrame float := mkDataFrame [] [].

Definition or_empty (r : result (DataFrame float)) : DataFrame float :=
  match r with
  | Ok d => d
  | Raise _ => empty
  end.

(** The sample after line 61, after line 69 and after line 83. *)
Definition sample_normalized : DataFrame float := or_empty (normalize decimal_literal sample).
Definition sample_filled : DataFrame float := or_empty (fill decimal_literal sample).
Definition sample_cleaned : DataFrame float :=
  or_empty (clean decimal_literal sin_series cos_series sample).

End float64.

(* ================================================================== *)
(** ** Rational bounds on pi *)




(* ================================================================== *)
(** * Properties *)

(** ** Numbers *)

Lemma Q2R_inject_Z (z : Z) : Q2R (inject_Z z) = IZR z.
Proof. unfold Q2R; simpl. rewrite Rinv_1. apply Rmult_1_r. Qed.

Lemma fin_ltb_spec (u v : np.finite) :
  np.fin_ltb u v = true <-> (np.toR u < np.toR v)%R.
Proof.
  assert (G : forall a b : R, (if Rlt_dec a b then true else false) = true <-> (a < b)%R).
  { intros a b. destruct (Rlt_dec a b); split; intros; auto; discriminate. }
  destruct u as [a | r], v as [b | r']; simpl; try apply G.
  rewrite negb_true_iff. split; intro H.
  - apply Qlt_Rlt. apply Qnot_le_lt. intro L.
    apply Qle_bool_iff in L. congruence.
  - destruct (Qle_bool b a) eqn:E; auto.
    apply Qle_bool_iff in E. apply Qle_Rle in E. lra.
Qed.

Lemma fin_eqb_spec (u v : np.finite) :
  np.fin_eqb u v = true <-> np.toR u = np.toR v.
Proof.
  assert (G : forall a b : R, (if Req_dec_T a b then true else false) = true <-> a = b).
  { intros a b. destruct (Req_dec_T a b); split; intros; auto; discriminate. }
  destruct u as [a | r], v as [b | r']; simpl; try apply G.
  rewrite Qeq_bool_iff. split; intro H.
  - apply Qeq_eqR; assumption.
  - apply eqR_Qeq; assumption.
Qed.

Lemma toR_add (u v : np.finite) : np.toR (np.fin_add u v) = (np.toR u + np.toR v)%R.
Proof. destruct u, v; simpl; auto. apply Q2R_plus. Qed.

Lemma toR_opp (u : np.finite) : np.toR (np.fin_opp u) = (- np.toR u)%R.
Proof. destruct u; simpl; auto. apply Q2R_opp. Qed.

Lemma toR_mul (u v : np.finite) : np.toR (np.fin_mul u v) = (np.toR u * np.toR v)%R.
Proof. destruct u, v; simpl; auto. apply Q2R_mult. Qed.

Lemma toR_div (u v : np.finite) :
  np.fin_eqb v np.zero = false ->
  np.toR (np.fin_div u v) = (np.toR u / np.toR v)%R.
Proof.
  intro NZ. destruct u as [a | r], v as [b | r']; simpl; auto.
  unfold Qdiv. rewrite Q2R_mult, Q2R_inv; auto.
  intro E. simpl in NZ. apply Qeq_bool_iff in E. congruence.
Qed.

(** [x == k] for an integer literal [k] holds of the finite [x] of value [k]
    only. *)
Lemma eqb_of_Z (x : np.double) (k : Z) :
  np.eqb x (np.of_Z k) = true <-> exists u, x = np.Fin u /\ np.toR u = IZR k.
Proof.
  split.
  - destruct x as [ | | | u]; simpl; try discriminate.
    intro H. apply fin_eqb_spec in H. simpl in H. rewrite Q2R_inject_Z in H. eauto.
  - intros (u & -> & H). simpl. apply fin_eqb_spec. simpl. now rewrite Q2R_inject_Z.
Qed.

Lemma contains_spec (x : np.double) (l : list Z) :
  contains x l = true <-> exists u k, x = np.Fin u /\ In k l /\ np.toR u = IZR k.
Proof.
  unfold contains. rewrite existsb_exists. split.
  - intros (k & I & H). apply eqb_of_Z in H. destruct H as (u & -> & H). eauto.
  - intros (u & k & -> & I & H). exists k. split; auto. apply eqb_of_Z. eauto.
Qed.

Lemma contains_nan (l : list Z) : contains np.NaN l = false.
Proof. induction l; simpl; auto. Qed.

(** ** Columns of a table *)

Section Columns.
Context {A : Type}.
Implicit Types (cols : list (string * list A)) (n m : string).

Lemma lookup_assign_same n (v : list A) cols :
  pd.lookup n (pd.assign n v cols) = Some v.
Proof.
  induction cols as [ | [n' c] tl IH]; simpl.
  - now rewrite String.eqb_refl.
  - destruct (String.eqb n' n) eqn:E; simpl; rewrite E; auto.
Qed.

Lemma lookup_assign_other n m (v : list A) cols :
  String.eqb n m = false ->
  pd.lookup m (pd.assign n v cols) = pd.lookup m cols.
Proof.
  intro NE. induction cols as [ | [n' c] tl IH]; simpl.
  - now rewrite NE.
  - destruct (String.eqb n' n) eqn:E; simpl.
    + apply String.eqb_eq in E. subst n'. now rewrite NE.
    + now rewrite IH.
Qed.

Lemma lookup_drop_same n cols :
  pd.lookup n (filter (fun nc => negb (String.eqb (fst nc) n)) cols) = None.
Proof.
  induction cols as [ | [n' c] tl IH]; simpl; auto.
  destruct (String.eqb n' n) eqn:E; simpl; auto. now rewrite E.
Qed.

Lemma lookup_drop_other n m cols :
  String.eqb n m = false ->
  pd.lookup m (filter (fun nc => negb (String.eqb (fst nc) n)) cols) = pd.lookup m cols.
Proof.
  intro NE. induction cols as [ | [n' c] tl IH]; simpl; auto.
  destruct (String.eqb n' n) eqn:E; simpl.
  - apply String.eqb_eq in E. subst n'. now rewrite NE.
  - now rewrite IH.
Qed.

Lemma lookup_map {B : Type} (f : list A -> list B) n cols :
  pd.lookup n (map (fun nc => (fst nc, f (snd nc))) cols) = option_map f (pd.lookup n cols).
Proof.
  induction cols as [ | [n' c] tl IH]; simpl; auto.
  destruct (String.eqb n' n); auto.
Qed.

Lemma getitem_Ok (df : DataFrame A) n (s : list A) :
  pd.getitem df n = Ok s <-> pd.lookup n (columns df) = Some s.
Proof.
  unfold pd.getitem. destruct (pd.lookup n (columns df)); split; intro H;
    inversion H; auto.
Qed.

End Columns.

Lemma lookup_names {A : Type} (n : string) (cols : list (string * list A)) :
  (exists c, pd.lookup n cols = Some c) <-> In n (map fst cols).
Proof.
  induction cols as [ | [n' c] tl IH]; simpl.
  - split; [intros (c & H); discriminate | tauto].
  - destruct (String.eqb n' n) eqn:E.
    + apply String.eqb_eq in E. split; eauto.
    + apply String.eqb_neq in E. rewrite IH. tauto.
Qed.

Lemma assign_names {A : Type} (n : string) (v : list A) (cols : list (string * list A)) :
  In n (map fst cols) -> map fst (pd.assign n v cols) = map fst cols.
Proof.
  induction cols as [ | [n' c] tl IH]; simpl; [tauto | ].
  destruct (String.eqb n' n) eqn:E; simpl; auto.
  apply String.eqb_neq in E. intros [H | H]; [contradiction | ]. now rewrite IH.
Qed.

Lemma map_columns_names {A B : Type} (f : list A -> list B) (cols : list (string * list A)) :
  map fst (map (fun nc => (fst nc, f (snd nc))) cols) = map fst cols.
Proof. rewrite map_map. reflexivity. Qed.

(** ** The numeric coercion (lines 17-25 and 56-58) *)

Section Coercion.
Variable strtod : string -> option np.double.

Lemma tryconvert_coerced (value : pyobj) : tryconvert strtod value = Ok (coerced strtod value).
Proof.
  unfold tryconvert, coerced, try_except.
  destruct (np_float64 strtod value); reflexivity.
Qed.

Lemma mapM_tryconvert (s : list pyobj) :
  mapM (tryconvert strtod) s = Ok (map (coerced strtod) s).
Proof.
  induction s as [ | x tl IH]; simpl; auto.
  now rewrite tryconvert_coerced, IH.
Qed.

Lemma convert_to_float_Ok (df : DataFrame pyobj) :
  convert_to_float strtod df = Ok (pd.map_columns (map (coerced strtod)) df).
Proof.
  unfold convert_to_float, pd.map_columns.
  assert (E : forall cols : list (string * list pyobj),
             mapM (fun nc => c <- mapM (tryconvert strtod) (snd nc) ;; Ok (fst nc, c)) cols
             = Ok (map (fun nc => (fst nc, map (coerced strtod) (snd nc))) cols)).
  { induction cols as [ | nc tl IH]; simpl; auto.
    now rewrite mapM_tryconvert, IH. }
  now rewrite E.
Qed.

(** C3.  The coercion of a cell never raises: [tryconvert] returns the float
    that [np.float64] parses from the value when it parses, and NaN when
    [np.float64] raises, whatever the exception; and the loop of lines 57-58
    ends normally on every table, with every cell of every column coerced
    that way. *)
Theorem tryconvert_total :
  (forall value x, np_float64 strtod value = Ok x -> tryconvert strtod value = Ok x) /\
  (forall value e, np_float64 strtod value = Raise e -> tryconvert strtod value = Ok np.nan) /\
  (forall value, exists x, tryconvert strtod value = Ok x) /\
  (forall df, exists out,
      convert_to_float strtod df = Ok out /\
      index out = index df /\
      columns out = map (fun nc => (fst nc, map (coerced strtod) (snd nc))) (columns df)).
Proof.
  repeat split.
  - intros value x H. rewrite tryconvert_coerced. unfold coerced. now rewrite H.
  - intros value e H. rewrite tryconvert_coerced. unfold coerced. now rewrite H.
  - intro value. eexists. apply tryconvert_coerced.
  - intro df. eexists. split; [apply convert_to_float_Ok | split; reflexivity].
Qed.

End Coercion.

(** ** The pressure tendency indicators (lines 76-83) *)

Lemma tests_disjoint (x : np.double) (l l' : list Z) :
  (forall k, In k l -> In k l' -> False) ->
  contains x l = true -> contains x l' = true -> False.
Proof.
  intros D H H'.
  apply contains_spec in H. destruct H as (u & k & -> & I & E).
  apply contains_spec in H'. destruct H' as (u' & k' & Eu & I' & E').
  injection Eu as <-. rewrite E in E'. apply eq_IZR in E'. subst k'. eauto.
Qed.

Lemma eqb_contains (x : np.double) (k : Z) : np.eqb x (np.of_Z k) = contains x [k].
Proof. unfold contains; simpl. now rewrite orb_false_r. Qed.

(** Closes a goal in which a value passes two of the tests of lines 77-79. *)
Ltac two_tests :=
  match goal with
  | H : contains ?x ?l = true, H' : contains ?x ?l' = true |- _ =>
      exfalso; apply (tests_disjoint x l l'); [simpl; intros; lia | exact H | exact H']
  end.

(** The three membership tests are pairwise disjoint, whatever the value. *)
Lemma indicators_exclusive (x : np.double) : count_ones [Incr x; Decr x; Cons x] <= 1.
Proof.
  unfold Incr, Decr, Cons. rewrite eqb_contains.
  destruct (contains x [0; 1; 2; 3]%Z) eqn:I;
    destruct (contains x [5; 6; 7; 8]%Z) eqn:D;
    destruct (contains x [4]%Z) eqn:C;
    first [two_tests | vm_compute; lia].
Qed.

Lemma encode_pressure_tendency_columns (d : DataFrame np.double) (tendency : list np.double) :
  pd.lookup "HOURLYPressureTendency" (columns d) = Some tendency ->
  exists out,
    encode_pressure_tendency d = Ok out /\
    index out = index d /\
    pd.lookup "HOURLYPressureTendencyIncr" (columns out) = Some (map Incr tendency) /\
    pd.lookup "HOURLYPressureTendencyDecr" (columns out) = Some (map Decr tendency) /\
    pd.lookup "HOURLYPressureTendencyCons" (columns out) = Some (map Cons tendency) /\
    pd.lookup "HOURLYPressureTendency" (columns out) = None /\
    (forall n,
        String.eqb "HOURLYPressureTendency" n = false ->
        String.eqb "HOURLYPressureTendencyIncr" n = false ->
        String.eqb "HOURLYPressureTendencyDecr" n = false ->
        String.eqb "HOURLYPressureTendencyCons" n = false ->
        pd.lookup n (columns out) = pd.lookup n (columns d)).
Proof.
  intro H. unfold encode_pressure_tendency, pd.getitem, pd.drop_column, pd.setitem.
  cbn [columns index bind].
  rewrite H; cbn [bind].
  rewrite lookup_assign_other by reflexivity. rewrite H; cbn [bind].
  rewrite !lookup_assign_other by reflexivity. rewrite H; cbn [bind].
  rewrite !lookup_assign_other by reflexivity. rewrite H; cbn [bind columns index].
  rewrite lookup_drop_other by reflexivity.
  rewrite !lookup_assign_other by reflexivity.
  rewrite lookup_assign_same; cbn [bind columns index].
  rewrite lookup_assign_other by reflexivity.
  rewrite lookup_drop_other by reflexivity.
  rewrite lookup_assign_other by reflexivity.
  rewrite lookup_assign_same; cbn [bind columns index].
  rewrite !lookup_assign_other by reflexivity.
  rewrite lookup_drop_other by reflexivity.
  rewrite lookup_assign_same; cbn [bind columns index].
  eexists. split; [reflexivity | ]. cbn [columns index]. unfold pd.astype_float32.
  split; [reflexivity | ].
  split.
  { rewrite !lookup_assign_other by reflexivity. now rewrite lookup_assign_same. }
  split.
  { rewrite lookup_assign_other by reflexivity. now rewrite lookup_assign_same. }
  split.
  { now rewrite lookup_assign_same. }
  split.
  { rewrite !lookup_assign_other by reflexivity. apply lookup_drop_same. }
  intros n N1 N2 N3 N4.
  rewrite !lookup_assign_other by assumption.
  rewrite lookup_drop_other by assumption.
  now rewrite !lookup_assign_other by assumption.
Qed.

Lemma encode_pressure_tendency_Ok (d out : DataFrame np.double) :
  encode_pressure_tendency d = Ok out ->
  exists tendency, pd.lookup "HOURLYPressureTendency" (columns d) = Some tendency.
Proof.
  unfold encode_pressure_tendency, pd.getitem at 1.
  destruct (pd.lookup "HOURLYPressureTendency" (columns d)); [eauto | discriminate].
Qed.

(** C10.  In every row of the encoded table at most one of the columns
    HOURLYPressureTendencyIncr, HOURLYPressureTendencyDecr and
    HOURLYPressureTendencyCons equals 1.0, whatever the tendency column
    held: NaN, infinities, fractions and codes outside 0-8 included. *)
Theorem tendency_indicators_exclusive
    (d out : DataFrame np.double) (incr_col decr_col cons_col : list np.double)
    (i : nat) (a b c : np.double) :
  encode_pressure_tendency d = Ok out ->
  pd.getitem out "HOURLYPressureTendencyIncr" = Ok incr_col ->
  pd.getitem out "HOURLYPressureTendencyDecr" = Ok decr_col ->
  pd.getitem out "HOURLYPressureTendencyCons" = Ok cons_col ->
  nth_error incr_col i = Some a ->
  nth_error decr_col i = Some b ->
  nth_error cons_col i = Some c ->
  count_ones [a; b; c] <= 1.
Proof.
  intros E GI GD GC NA NB NC.
  destruct (encode_pressure_tendency_Ok _ _ E) as (tendency & L).
  destruct (encode_pressure_tendency_columns _ _ L) as (out' & E' & _ & LI & LD & LC & _).
  rewrite E in E'. injection E' as <-.
  apply getitem_Ok in GI, GD, GC.
  rewrite LI in GI. rewrite LD in GD. rewrite LC in GC.
  injection GI as <-. injection GD as <-. injection GC as <-.
  rewrite nth_error_map in NA, NB, NC.
  destruct (nth_error tendency i) as [x | ]; try discriminate.
  injection NA as <-. injection NB as <-. injection NC as <-.
  apply indicators_exclusive.
Qed.

(** ** The visibility bounds (lines 60-61) *)

Lemma fin_leb_spec (u v : np.finite) :
  np.fin_leb u v = true <-> (np.toR u <= np.toR v)%R.
Proof.
  assert (G : forall a b : R, (if Rle_dec a b then true else false) = true <-> (a <= b)%R).
  { intros a b. destruct (Rle_dec a b); split; intros; auto; discriminate. }
  destruct u as [a | r], v as [b | r']; simpl; try apply G.
  rewrite Qle_bool_iff. split; intro H.
  - apply Qle_Rle; assumption.
  - apply Rle_Qle; assumption.
Qed.

Lemma missing_or_within_spec (x : np.double) :
  missing_or_within x = true <->
  x = np.NaN \/ exists u, x = np.Fin u /\ (0 <= np.toR u <= 10)%R.
Proof.
  destruct x as [ | | | u].
  - split; auto.
  - split; [discriminate | intros [H | (u & H & _)]; discriminate].
  - split; [discriminate | intros [H | (u & H & _)]; discriminate].
  - change (missing_or_within (np.Fin u))
      with (np.fin_leb (np.Rat (inject_Z 0)) u && np.fin_leb u (np.Rat (inject_Z 10))).
    rewrite andb_true_iff, !fin_leb_spec. simpl. rewrite !Q2R_inject_Z.
    split.
    + intros [H1 H2]. right. exists u. repeat split; auto.
    + intros [H | (u' & H & B)]; [discriminate | ]. injection H as <-. exact B.
Qed.

Lemma mask_set_map {A : Type} (f : A -> bool) (v : A) (s : list A) :
  pd.mask_set (map f s) v s = map (fun x => if f x then v else x) s.
Proof. induction s as [ | x tl IH]; simpl; auto. now rewrite IH. Qed.

(** A value that passes neither test of line 61 is missing or within the
    bounds. *)
Lemma kept_within (x : np.double) :
  np.gtb x (np.of_Z 10) || np.ltb x (np.of_Z 0) = false ->
  missing_or_within x = true.
Proof.
  rewrite orb_false_iff. intros [G L]. apply missing_or_within_spec.
  destruct x as [ | | | u]; [now left | discriminate L | discriminate G | ].
  right. exists u. split; auto.
  change (np.fin_ltb (np.Rat (inject_Z 10)) u = false) in G.
  change (np.fin_ltb u (np.Rat (inject_Z 0)) = false) in L.
  assert (~ (np.toR (np.Rat (inject_Z 10)) < np.toR u)%R) as G'.
  { intro C. apply fin_ltb_spec in C. congruence. }
  assert (~ (np.toR u < np.toR (np.Rat (inject_Z 0)))%R) as L'.
  { intro C. apply fin_ltb_spec in C. congruence. }
  simpl in G', L'. rewrite Q2R_inject_Z in G', L'. lra.
Qed.

Lemma bounded_within (s : list np.double) :
  Forall (fun x => missing_or_within x = true)
    (pd.mask_set (map (fun x => np.gtb x (np.of_Z 10) || np.ltb x (np.of_Z 0)) s) np.nan s).
Proof.
  rewrite mask_set_map. apply Forall_map, Forall_forall. intros x _.
  destruct (np.gtb x (np.of_Z 10) || np.ltb x (np.of_Z 0)) eqn:E.
  - reflexivity.
  - now apply kept_within.
Qed.

(** ** Filling gaps (lines 66-68) *)

Lemma isnan_false (x : np.double) : np.isnan x = false <-> x <> np.NaN.
Proof. destruct x; simpl; split; congruence. Qed.

Lemma isnan_true (x : np.double) : np.isnan x = true <-> x = np.NaN.
Proof. destruct x; simpl; split; congruence. Qed.

Lemma next_valid_Some (s : list np.double) (d : nat) (b : np.double) :
  pd.next_valid s = Some (d, b) ->
  nth_error s d = Some b /\ np.isnan b = false /\
  forall j, j < d -> nth_error s j = Some np.NaN.
Proof.
  revert d. induction s as [ | x tl IH]; simpl; intros d H; [discriminate | ].
  destruct (np.isnan x) eqn:N.
  - destruct (pd.next_valid tl) as [[d' y] | ]; [ | discriminate].
    injection H as <- <-. destruct (IH d' eq_refl) as (E & V & L).
    repeat split; auto. intros [ | j] J; simpl.
    + apply isnan_true in N. now subst.
    + apply L. lia.
  - injection H as <- <-. repeat split; auto. intros j J. lia.
Qed.

Lemma next_valid_None (s : list np.double) :
  pd.next_valid s = None -> Forall (fun x => x = np.NaN) s.
Proof.
  induction s as [ | x tl IH]; simpl; intro H; auto.
  destruct (np.isnan x) eqn:N; [ | discriminate].
  destruct (pd.next_valid tl) as [[d' y] | ]; [discriminate | ].
  constructor; auto. now apply isnan_true.
Qed.

Lemma Q2R_zero : Q2R 0 = 0%R.
Proof. unfold Q2R; simpl. lra. Qed.

Lemma of_nat_nonzero (n : nat) :
  0 < n -> np.fin_eqb (np.Rat (inject_Z (Z.of_nat n))) np.zero = false.
Proof.
  intro P. destruct (np.fin_eqb _ _) eqn:E; auto.
  apply fin_eqb_spec in E. simpl in E. rewrite Q2R_inject_Z, Q2R_zero in E.
  apply eq_IZR in E. lia.
Qed.

(** Between two finite values the interpolated value is finite, and is the
    value of the line through them. *)
Lemma interp_point_finite (ua ub : np.finite) (gap k : nat) :
  0 < gap ->
  exists w,
    pd.interp_point (np.Fin ua) (np.Fin ub) gap k = np.Fin w /\
    np.toR w =
      ((np.toR ub - np.toR ua) / IZR (Z.of_nat gap) * IZR (Z.of_nat k) + np.toR ua)%R.
Proof.
  intro P. unfold pd.interp_point, np.sub, np.of_nat, np.of_Z.
  cbn [np.neg np.add np.div]. rewrite (of_nat_nonzero gap P). cbn [np.mul np.add].
  eexists. split; [reflexivity | ].
  rewrite toR_add, toR_mul, toR_div by (apply of_nat_nonzero; exact P).
  rewrite toR_add, toR_opp. simpl. rewrite !Q2R_inject_Z. reflexivity.
Qed.

(** A point of the segment between two numbers of [0, 10] is in [0, 10]. *)
Lemma segment_within (a b : R) (gap k : nat) :
  (0 <= a <= 10)%R -> (0 <= b <= 10)%R -> k <= gap -> 0 < gap ->
  (0 <= (b - a) / IZR (Z.of_nat gap) * IZR (Z.of_nat k) + a <= 10)%R.
Proof.
  intros A B K G.
  assert (0 < IZR (Z.of_nat gap))%R as G' by (apply IZR_lt; lia).
  assert (0 <= IZR (Z.of_nat k))%R as K0 by (apply IZR_le; lia).
  assert (IZR (Z.of_nat k) <= IZR (Z.of_nat gap))%R as K1 by (apply IZR_le; lia).
  set (g := IZR (Z.of_nat gap)) in *. set (n := IZR (Z.of_nat k)) in *.
  set (t := (n / g)%R).
  assert (0 <= t <= 1)%R as T.
  { unfold t. split.
    - apply Rmult_le_pos; auto. left. now apply Rinv_0_lt_compat.
    - apply Rmult_le_reg_r with g; auto. unfold Rdiv.
      rewrite Rmult_assoc, Rinv_l by lra. lra. }
  replace ((b - a) / g * n + a)%R with (a * (1 - t) + b * t)%R
    by (unfold t; field; lra).
  nra.
Qed.

Lemma within_valid (x : np.double) :
  within x -> np.isnan x = false ->
  exists u, x = np.Fin u /\ (0 <= np.toR u <= 10)%R.
Proof.
  intros W V. apply missing_or_within_spec in W. destruct W as [-> | W]; auto.
  discriminate.
Qed.

Lemma interpolate_from_within (s : list np.double) :
  Forall within s ->
  forall prev k,
    match prev with
    | None => True
    | Some a => within a /\ np.isnan a = false /\ 0 < k
    end ->
    Forall within (pd.interpolate_from prev k s).
Proof.
  induction 1 as [ | x tl Wx Wtl IH]; intros prev k P; simpl; [constructor | ].
  destruct (np.isnan x) eqn:N.
  - constructor.
    + destruct prev as [a | ]; [ | reflexivity].
      destruct P as (Wa & Va & K).
      destruct (pd.next_valid tl) as [[d b] | ] eqn:NV; [ | exact Wa].
      apply next_valid_Some in NV. destruct NV as (E & Vb & _).
      assert (within b) as Wb.
      { apply nth_error_In in E. rewrite Forall_forall in Wtl. now apply Wtl. }
      destruct (within_valid a Wa Va) as (ua & -> & Ba).
      destruct (within_valid b Wb Vb) as (ub & -> & Bb).
      destruct (interp_point_finite ua ub (k + S d) k) as (w & -> & Ew); [lia | ].
      apply missing_or_within_spec. right. exists w. split; auto.
      rewrite Ew. apply segment_within; auto; lia.
    + apply IH. destruct prev as [a | ]; auto.
      destruct P as (Wa & Va & K). repeat split; auto.
  - constructor; [exact Wx | ]. apply IH. repeat split; auto.
Qed.

Lemma interpolate_linear_within (s : list np.double) :
  Forall within s -> Forall within (pd.interpolate_linear s).
Proof. intro W. now apply interpolate_from_within. Qed.

(** ** Stages of the pipeline *)

Lemma bind_Ok {A B : Type} (m : result A) (k : A -> result B) (b : B) :
  bind m k = Ok b -> exists a, m = Ok a /\ k a = Ok b.
Proof. destruct m as [a | e]; simpl; [eauto | discriminate]. Qed.

Section Sorting.
Context {X : Type} (key : X -> Z).

Lemma insert_row_perm (r : X) (l : list X) :
  Permutation (pd.insert_row key r l) (r :: l).
Proof.
  induction l as [ | r' tl IH]; simpl; auto.
  destruct (Z.leb (key r) (key r')); auto.
  rewrite IH. apply perm_swap.
Qed.

Lemma sort_rows_perm (l : list X) : Permutation (pd.sort_rows key l) l.
Proof.
  induction l as [ | r tl IH]; simpl; auto.
  rewrite insert_row_perm. now constructor.
Qed.

Lemma insert_row_sorted (r : X) (l : list X) :
  StronglySorted (fun a b => (key a <= key b)%Z) l ->
  StronglySorted (fun a b => (key a <= key b)%Z) (pd.insert_row key r l).
Proof.
  induction 1 as [ | r' tl S IH F]; simpl.
  - repeat constructor.
  - destruct (Z.leb (key r) (key r')) eqn:E.
    + apply Z.leb_le in E. constructor.
      * now constructor.
      * constructor; auto. eapply Forall_impl; [ | exact F].
        simpl; intros; lia.
    + apply Z.leb_gt in E. constructor; auto.
      eapply Permutation_Forall.
      * symmetry. apply insert_row_perm.
      * constructor; auto. lia.
Qed.

Lemma sort_rows_sorted (l : list X) :
  StronglySorted (fun a b => (key a <= key b)%Z) (pd.sort_rows key l).
Proof.
  induction l as [ | r tl IH]; simpl; [constructor | ].
  now apply insert_row_sorted.
Qed.

End Sorting.

Lemma group_incl {A : Type} (freq : Z) (ts : list Timestamp) (s : list A) (b : Z) (x : A) :
  In x (pd.group freq ts s b) -> In x s.
Proof.
  unfold pd.group. rewrite in_map_iff. intros ([t y] & <- & I).
  apply filter_In in I. destruct I as [I _].
  eapply Permutation_in in I; [ | apply sort_rows_perm].
  now apply in_combine_r in I.
Qed.

Lemma last_valid_cases (g : list np.double) :
  pd.last_valid g = np.NaN \/ In (pd.last_valid g) g.
Proof.
  induction g as [ | x tl IH]; simpl; auto.
  destruct (pd.last_valid tl) eqn:E; auto; right; right;
    destruct IH as [C | I]; auto; discriminate.
Qed.

Section Preserved.
(** A property of cells that NaN has. *)
Variable P : np.double -> Prop.
Hypothesis P_nan : P np.NaN.

Lemma resampled_Forall (freq : Z) (ts : list Timestamp) (s : list np.double) (bs : list Z) :
  Forall P s ->
  Forall P (map (fun b => pd.last_valid (pd.group freq ts s b)) bs).
Proof.
  intro F. apply Forall_map, Forall_forall. intros b _.
  destruct (last_valid_cases (pd.group freq ts s b)) as [-> | I]; auto.
  apply group_incl in I. rewrite Forall_forall in F. auto.
Qed.

Lemma removelast_incl {A : Type} (l : list A) (x : A) : In x (removelast l) -> In x l.
Proof.
  induction l as [ | y tl IH]; simpl; auto.
  destruct tl; simpl in *; intuition.
Qed.

Lemma shift1_Forall (s : list np.double) :
  Forall P s -> Forall P (pd.shift1 np.NaN s).
Proof.
  intro F. destruct s as [ | x tl]; simpl; auto.
  constructor; auto. apply Forall_forall. intros y I.
  rewrite Forall_forall in F. apply F.
  now apply (removelast_incl (x :: tl)).
Qed.

End Preserved.

Lemma select_incl {A : Type} (keep : list bool) (s : list A) (x : A) :
  In x (pd.select keep s) -> In x s.
Proof.
  revert s. induction keep as [ | b keep IH]; intros [ | y s]; simpl; try tauto.
  destruct b; simpl; intros I; [destruct I | ]; auto.
Qed.

Lemma select_Forall {A : Type} (P : A -> Prop) (keep : list bool) (s : list A) :
  Forall P s -> Forall P (pd.select keep s).
Proof.
  rewrite !Forall_forall. intros F x I. apply F. eapply select_incl; eauto.
Qed.

(** *** Where each stage leaves a column *)

Lemma bound_visibility_Ok (d out : DataFrame np.double) :
  bound_visibility d = Ok out ->
  exists v,
    pd.lookup "HOURLYVISIBILITY" (columns d) = Some v /\
    index out = index d /\
    pd.lookup "HOURLYVISIBILITY" (columns out) =
      Some (pd.mask_set (map (fun x => np.gtb x (np.of_Z 10) || np.ltb x (np.of_Z 0)) v)
                        np.nan v) /\
    forall n, String.eqb "HOURLYVISIBILITY" n = false ->
              pd.lookup n (columns out) = pd.lookup n (columns d).
Proof.
  unfold bound_visibility, pd.loc_set. intro H.
  apply bind_Ok in H. destruct H as (v & G & H).
  rewrite G in H. simpl in H. injection H as <-.
  apply getitem_Ok in G. exists v. repeat split; auto.
  - simpl. apply lookup_assign_same.
  - intros n N. simpl. now apply lookup_assign_other.
Qed.

Lemma downsample_lookup (df : DataFrame np.double) (n : string) :
  pd.lookup n (columns (downsample df)) =
  option_map (fun s => pd.shift1 np.NaN
                         (map (fun b => pd.last_valid (pd.group pd.hour (index df) s b))
                              (pd.bins pd.hour (index df))))
             (pd.lookup n (columns df)).
Proof.
  unfold downsample, pd.shift, pd.map_columns, pd.resample_last. cbn [columns index].
  rewrite lookup_map.
  rewrite (lookup_map (fun s => map (fun b => pd.last_valid (pd.group pd.hour (index df) s b))
                                    (pd.bins pd.hour (index df)))).
  now destruct (pd.lookup n (columns df)).
Qed.

Lemma downsample_index (df : DataFrame np.double) :
  index (downsample df) = map (fun b => (b * pd.hour)%Z) (pd.bins pd.hour (index df)).
Proof. reflexivity. Qed.

Lemma interpolate_missing_Ok (d out : DataFrame np.double) :
  interpolate_missing d = Ok out ->
  exists tendency,
    pd.lookup "HOURLYPressureTendency" (columns d) = Some tendency /\
    index out = index d /\
    pd.lookup "HOURLYPressureTendency" (columns out) =
      Some (pd.interpolate_linear (pd.ffill tendency)) /\
    forall n, String.eqb "HOURLYPressureTendency" n = false ->
              pd.lookup n (columns out) =
              option_map pd.interpolate_linear (pd.lookup n (columns d)).
Proof.
  unfold interpolate_missing. intro H.
  apply bind_Ok in H. destruct H as (t & G & H). injection H as <-.
  apply getitem_Ok in G. exists t. repeat split; auto.
  - unfold pd.interpolate, pd.map_columns, pd.setitem. cbn [columns index].
    now rewrite lookup_map, lookup_assign_same.
  - intros n N. unfold pd.interpolate, pd.map_columns, pd.setitem. cbn [columns index].
    now rewrite lookup_map, lookup_assign_other.
Qed.

Lemma drop_first_row_Ok (d out : DataFrame np.double) :
  drop_first_row d = Ok out ->
  exists label rest,
    index d = label :: rest /\ out = pd.drop_label d label.
Proof.
  unfold drop_first_row, pd.first_label. intro H.
  destruct (index d) as [ | label rest] eqn:E; [discriminate | ].
  simpl in H. injection H as <-. eauto.
Qed.

Lemma drop_label_lookup {A : Type} (d : DataFrame A) (label : Timestamp) (n : string) :
  pd.lookup n (columns (pd.drop_label d label)) =
  option_map (pd.select (map (fun t => negb (Z.eqb t label)) (index d)))
             (pd.lookup n (columns d)).
Proof. unfold pd.drop_label. cbn [columns]. apply lookup_map. Qed.

Lemma encode_wind_direction_columns (d : DataFrame np.double) (direction : list np.double) :
  pd.lookup "HOURLYWindDirection" (columns d) = Some direction ->
  exists out,
    encode_wind_direction d = Ok out /\
    index out = index d /\
    pd.lookup "HOURLYWindDirectionSin" (columns out) =
      Some (map (fun x => np.sin (radians x)) direction) /\
    pd.lookup "HOURLYWindDirectionCos" (columns out) =
      Some (map (fun x => np.cos (radians x)) direction) /\
    pd.lookup "HOURLYWindDirection" (columns out) = None /\
    (forall n,
        String.eqb "HOURLYWindDirection" n = false ->
        String.eqb "HOURLYWindDirectionSin" n = false ->
        String.eqb "HOURLYWindDirectionCos" n = false ->
        pd.lookup n (columns out) = pd.lookup n (columns d)).
Proof.
  intro H. unfold encode_wind_direction, pd.getitem, pd.drop_column, pd.setitem.
  cbn [columns index bind].
  rewrite H; cbn [bind].
  rewrite lookup_assign_other by reflexivity. rewrite H; cbn [bind columns index].
  rewrite !lookup_assign_other by reflexivity. rewrite H.
  eexists. split; [reflexivity | ]. cbn [columns index].
  split; [reflexivity | ].
  split.
  { rewrite lookup_drop_other by reflexivity.
    rewrite lookup_assign_other by reflexivity. now rewrite lookup_assign_same. }
  split.
  { rewrite lookup_drop_other by reflexivity. now rewrite lookup_assign_same. }
  split.
  { apply lookup_drop_same. }
  intros n N1 N2 N3.
  rewrite lookup_drop_other by assumption.
  now rewrite !lookup_assign_other by assumption.
Qed.

Lemma encode_wind_direction_Ok (d out : DataFrame np.double) :
  encode_wind_direction d = Ok out ->
  exists direction, pd.lookup "HOURLYWindDirection" (columns d) = Some direction.
Proof.
  unfold encode_wind_direction, pd.getitem at 1.
  destruct (pd.lookup "HOURLYWindDirection" (columns d)); [eauto | discriminate].
Qed.

(** ** The run: output path, file written, report (lines 85-98) *)

Section Run.
Variable strtod : string -> option np.double.
Variable getsizeof : DataFrame np.double -> Z.

(** The report only prints. *)
Lemma report_prints (d : DataFrame np.double) : Forall is_print (fst (report getsizeof d)).
Proof.
  unfold report, pd.first_label, pd.last_label, bindIO, emit, lift.
  destruct (index d) as [ | t tl]; simpl;
    repeat (constructor; [unfold is_print; eauto | ]); constructor.
Qed.

Lemma prints_write_nothing {A : Type} (evs : list event) (r : result A) :
  Forall is_print evs -> files_written (evs, r) = [].
Proof.
  unfold files_written; simpl. induction 1 as [ | e tl (text & value & ->) F IH]; simpl; auto.
Qed.

(** The events of a run: nothing when the cleaning or line 86 raises;
    otherwise the file, then the report when [verbose] is set. *)
Lemma main_events (args : Namespace) (df : DataFrame pyobj) :
  fst (main strtod getsizeof args df) =
  match clean strtod df, output_path (filepath args) with
  | Ok d, Ok path =>
      to_csv path d :: (if verbose args then fst (report getsizeof d) else [])
  | _, _ => []
  end.
Proof.
  unfold main, bindIO, lift, emit, ret.
  destruct (clean strtod df) as [d | e]; cbn [fst]; auto.
  destruct (output_path (filepath args)) as [path | e]; cbn [fst]; auto.
  destruct (verbose args); [ | reflexivity].
  destruct (report getsizeof d) as [evs r]. reflexivity.
Qed.

Lemma main_files (args : Namespace) (df : DataFrame pyobj) :
  files_written (main strtod getsizeof args df) =
  match clean strtod df, output_path (filepath args) with
  | Ok d, Ok path => [(path, d)]
  | _, _ => []
  end.
Proof.
  unfold files_written. rewrite main_events.
  destruct (clean strtod df) as [d | e]; auto.
  destruct (output_path (filepath args)) as [path | e]; auto.
  cbn [flat_map]. destruct (verbose args); cbn [app]; auto.
  f_equal. apply (prints_write_nothing _ (Ok tt)), report_prints.
Qed.

(** How a run ends. *)
Lemma main_status (args : Namespace) (df : DataFrame pyobj) :
  snd (main strtod getsizeof args df) =
  match clean strtod df, output_path (filepath args) with
  | Ok d, Ok path => if verbose args then snd (report getsizeof d) else Ok tt
  | Ok _, Raise e => Raise e
  | Raise e, _ => Raise e
  end.
Proof.
  unfold main, bindIO, lift, emit, ret.
  destruct (clean strtod df) as [d | e]; cbn [snd]; auto.
  destruct (output_path (filepath args)) as [path | e]; cbn [snd]; auto.
  destruct (verbose args); [ | reflexivity].
  destruct (report getsizeof d) as [evs r]. reflexivity.
Qed.

(** The report ends normally on a table that has a row. *)
Lemma report_status (d : DataFrame np.double) :
  index d <> [] -> snd (report getsizeof d) = Ok tt.
Proof.
  intro NE. unfold report, pd.first_label, pd.last_label, bindIO, emit, lift.
  destruct (index d) as [ | t tl]; [contradiction | reflexivity].
Qed.

(** What the flag leaves alone: a run with the verbose flag and a run without
    it, on the same path and the same table, write the same file with the
    same cleaned table; the events of the verbose run are those of the other
    run followed by prints only; and the two runs end the same way when the
    cleaned table has a row.  When it has none they do not (see
    [one_hour_verbose]). *)
Lemma verbose_noninterference (path : string) (df : DataFrame pyobj) :
  files_written (main strtod getsizeof (mkNamespace path true) df) =
  files_written (main strtod getsizeof (mkNamespace path false) df) /\
  (exists prints,
      fst (main strtod getsizeof (mkNamespace path true) df) =
      fst (main strtod getsizeof (mkNamespace path false) df) ++ prints /\
      Forall is_print prints) /\
  (forall d,
      clean strtod df = Ok d -> index d <> [] ->
      snd (main strtod getsizeof (mkNamespace path true) df) =
      snd (main strtod getsizeof (mkNamespace path false) df)).
Proof.
  split; [ | split].
  - now rewrite !main_files.
  - rewrite !main_events. cbn [filepath verbose].
    destruct (clean strtod df) as [d | e].
    + destruct (output_path path) as [p | e].
      * exists (fst (report getsizeof d)). split; [reflexivity | apply report_prints].
      * exists []. split; [reflexivity | constructor].
    + exists []. split; [reflexivity | constructor].
  - intros d C NE. rewrite !main_status. cbn [filepath verbose]. rewrite C.
    destruct (output_path path); auto. now apply report_status.
Qed.

End Run.

(** *** The output path (line 86) *)

Lemma split_no_sep (c : ascii) (s : string) :
  str.count c s = 0 -> str.split c s = [s].
Proof.
  induction s as [ | c' s IH]; simpl; auto.
  destruct (Ascii.eqb c' c); [discriminate | ].
  simpl. intro H. now rewrite IH.
Qed.

Lemma split_at_sep (c : ascii) (a b : string) :
  str.count c a = 0 ->
  str.split c (a ++ String c b) = a :: str.split c b.
Proof.
  induction a as [ | c' a IH]; simpl.
  - intros _. now rewrite Ascii.eqb_refl.
  - destruct (Ascii.eqb c' c); [discriminate | ].
    simpl. intro H. now rewrite IH.
Qed.

Lemma split_length (c : ascii) (s : string) :
  List.length (str.split c s) = S (str.count c s).
Proof.
  induction s as [ | c' s IH]; simpl; auto.
  destruct (Ascii.eqb c' c); simpl; [now rewrite IH | ].
  destruct (str.split c s); simpl in *; congruence.
Qed.

(** Line 86 ends normally on the paths with exactly one ['.'], and on no
    other. *)
Lemma output_path_Ok_iff (path : string) :
  (exists out, output_path path = Ok out) <-> str.count "." path = 1.
Proof.
  unfold output_path, unpack2.
  pose proof (split_length "." path) as L.
  destruct (str.split "." path) as [ | a [ | b [ | c tl]]]; simpl in *;
    (split; [intros (out & H); try discriminate; lia | intro H; try lia; eauto]).
Qed.

Lemma output_path_raises (path : string) :
  str.count "." path <> 1 -> output_path path = Raise ValueError.
Proof.
  intro H. unfold output_path, unpack2.
  pose proof (split_length "." path) as L.
  destruct (str.split "." path) as [ | a [ | b [ | c tl]]]; simpl in *; auto; lia.
Qed.

(** ** Visibility stays within its bounds in exact arithmetic *)

Lemma within_nan : within np.NaN.
Proof. reflexivity. Qed.

(** With unrounded arithmetic every visibility of the cleaned table is
    missing or within [0, 10]: interpolation between two values of [0, 10]
    stays in [0, 10]. *)
Lemma clean_visibility_within
    (strtod : string -> option np.double) (df : DataFrame pyobj)
    (out : DataFrame np.double) (visibility : list np.double) :
  clean strtod df = Ok out ->
  pd.lookup "HOURLYVISIBILITY" (columns out) = Some visibility ->
  Forall within visibility.
Proof.
  unfold clean, fill, normalize. intros H L.
  apply bind_Ok in H. destruct H as (d6 & H & H78).
  apply bind_Ok in H. destruct H as (d3 & H3 & H).
  apply bind_Ok in H3. destruct H3 as (d1 & _ & H3).
  apply bind_Ok in H3. destruct H3 as (d2 & _ & H3).
  apply bind_Ok in H. destruct H as (d5 & H5 & H6).
  apply bind_Ok in H78. destruct H78 as (d7 & H7 & H8).
  (* line 61 *)
  apply bound_visibility_Ok in H3. destruct H3 as (v & _ & _ & L3 & _).
  pose proof (bounded_within v) as W3.
  (* line 64 *)
  pose proof (downsample_lookup d3 "HOURLYVISIBILITY") as L4.
  rewrite L3 in L4. cbn [option_map] in L4.
  assert (Forall within (pd.shift1 np.NaN
            (map (fun b => pd.last_valid (pd.group pd.hour (index d3)
                     (pd.mask_set (map (fun x => np.gtb x (np.of_Z 10) || np.ltb x (np.of_Z 0)) v)
                                  np.nan v) b))
                 (pd.bins pd.hour (index d3))))) as W4.
  { apply shift1_Forall; [exact within_nan | ].
    apply resampled_Forall; [exact within_nan | exact W3]. }
  (* lines 67-68 *)
  apply interpolate_missing_Ok in H5. destruct H5 as (t & _ & _ & _ & L5).
  specialize (L5 "HOURLYVISIBILITY" eq_refl). rewrite L4 in L5. cbn [option_map] in L5.
  apply interpolate_linear_within in W4.
  (* line 69 *)
  apply drop_first_row_Ok in H6. destruct H6 as (label & rest & _ & ->).
  pose proof (drop_label_lookup d5 label "HOURLYVISIBILITY") as L6.
  rewrite L5 in L6. cbn [option_map] in L6.
  (* lines 72-83 *)
  destruct (encode_wind_direction_Ok _ _ H7) as (direction & LD).
  destruct (encode_wind_direction_columns _ _ LD) as (d7' & E7 & _ & _ & _ & _ & K7).
  rewrite H7 in E7. injection E7 as <-.
  destruct (encode_pressure_tendency_Ok _ _ H8) as (tendency & LT).
  destruct (encode_pressure_tendency_columns _ _ LT) as (out' & E8 & _ & _ & _ & _ & _ & K8).
  rewrite H8 in E8. injection E8 as <-.
  rewrite K8, K7, L6 in L by reflexivity.
  injection L as <-. now apply select_Forall.
Qed.

(** ** Normalisation of the markers (lines 49-54) *)

Lemma gtb_of_nat_one (n : nat) : np.gtb (np.of_nat n) (np.of_Z 1) = true <-> 1 < n.
Proof.
  unfold np.gtb, np.of_nat, np.of_Z. cbn [np.ltb]. rewrite fin_ltb_spec. simpl.
  rewrite !Q2R_inject_Z. split; intro H.
  - apply lt_IZR in H. lia.
  - apply IZR_lt. lia.
Qed.

Lemma replace_keeps_strings (a b : string) (s : list pyobj) :
  existsb pd.is_str (pd.replace a (PyStr b) s) = existsb pd.is_str s.
Proof.
  unfold pd.replace. induction s as [ | c tl IH]; simpl; auto.
  rewrite IH. f_equal. destruct c as [t | x | z]; simpl; auto.
  now destruct (String.eqb t a).
Qed.

Lemma str_count_Ok (c : ascii) (s : list pyobj) :
  existsb pd.is_str s = true ->
  pd.str_count c s = Ok (map (fun x => match x with
                                       | PyStr t => np.of_nat (str.count c t)
                                       | _ => np.NaN
                                       end) s).
Proof. intro H. unfold pd.str_count, pd.str_accessor. now rewrite H. Qed.

Lemma replace_markers_columns (df : DataFrame pyobj) (precip : list pyobj) :
  pd.lookup "HOURLYPrecip" (columns df) = Some precip ->
  strings_left precip = true ->
  exists out,
    replace_markers df = Ok out /\
    names out = names df /\
    index out = index df /\
    pd.lookup "HOURLYPrecip" (columns out) = Some (map precip_cell precip) /\
    forall n, String.eqb "HOURLYPrecip" n = false ->
              pd.lookup n (columns out) =
              option_map (pd.replace "*" (PyFloat np.nan)) (pd.lookup n (columns df)).
Proof.
  intros H SL. unfold replace_markers, pd.loc_set, pd.getitem, pd.setitem, pd.map_columns.
  cbn [columns index]. rewrite lookup_map, H. cbn [option_map bind columns index].
  rewrite !lookup_assign_same. cbn [bind columns index].
  rewrite str_count_Ok by (rewrite replace_keeps_strings; exact SL).
  cbn [bind columns index].
  eexists. split; [reflexivity | ]. unfold names. cbn [columns index].
  split.
  { assert (In "HOURLYPrecip"
               (map fst (map (fun nc : string * list pyobj =>
                                (fst nc, pd.replace "*" (PyFloat np.nan) (snd nc)))
                             (columns df)))) as I
      by (rewrite map_columns_names; apply lookup_names; eauto).
    rewrite assign_names; rewrite assign_names; auto. apply map_columns_names. }
  split; [reflexivity | ]. split.
  - rewrite lookup_assign_same. f_equal.
    unfold pd.replace. rewrite !map_map.
    rewrite <- (map_map (fun c => pd.replace_cell "T" (PyStr "0.00")
                                    (pd.replace_cell "*" (PyFloat np.nan) c))
                        (fun c => np.gtb match c with
                                         | PyStr t => np.of_nat (str.count "." t)
                                         | _ => np.NaN
                                         end (np.of_Z 1))).
    rewrite mask_set_map, map_map. apply map_ext. intro c.
    unfold precip_cell.
    destruct (pd.replace_cell "T" (PyStr "0.00") (pd.replace_cell "*" (PyFloat np.nan) c));
      reflexivity.
  - intros n N. rewrite !lookup_assign_other by assumption. apply lookup_map.
Qed.

Lemma replace_markers_Ok (df out : DataFrame pyobj) :
  replace_markers df = Ok out ->
  exists precip,
    pd.lookup "HOURLYPrecip" (columns df) = Some precip /\ strings_left precip = true.
Proof.
  unfold replace_markers, pd.getitem, pd.setitem, pd.map_columns. cbn [columns index].
  rewrite lookup_map.
  destruct (pd.lookup "HOURLYPrecip" (columns df)) as [precip | ]; [ | discriminate].
  cbn [option_map bind columns index]. rewrite !lookup_assign_same. cbn [bind].
  unfold pd.str_count, pd.str_accessor. rewrite replace_keeps_strings.
  fold (strings_left precip).
  destruct (strings_left precip) eqn:E; [eauto | discriminate].
Qed.


Lemma precip_cell_no_marker (c : pyobj) :
  precip_cell c <> PyStr "T" /\
  forall s, precip_cell c = PyStr s -> str.count "." s <= 1.
Proof.
  unfold precip_cell.
  destruct c as [s | x | z]; cbn [pd.replace_cell]; try (split; [ | intro]; discriminate).
  destruct (String.eqb s "*") eqn:E1; try (split; [ | intro]; discriminate).
  cbn [pd.replace_cell].
  destruct (String.eqb s "T") eqn:E2.
  - destruct (np.gtb (np.of_nat (str.count "." "0.00")) (np.of_Z 1)) eqn:G.
    + split; [ | intro]; discriminate.
    + split; [discriminate | ]. intros s' H. injection H as <-. simpl. lia.
  - destruct (np.gtb (np.of_nat (str.count "." s)) (np.of_Z 1)) eqn:G.
    + split; [ | intro]; discriminate.
    + split.
      * intro H. injection H as ->. discriminate.
      * intros s' H. injection H as <-.
        destruct (Nat.le_gt_cases (str.count "." s) 1) as [L | L]; auto.
        apply gtb_of_nat_one in L. congruence.
Qed.

Lemma strings_left_In (precip : list pyobj) (s : string) :
  In (PyStr s) precip -> s <> "*" -> strings_left precip = true.
Proof.
  intros I NE. unfold strings_left, pd.replace. apply existsb_exists.
  exists (PyStr s). split.
  - apply in_map_iff. exists (PyStr s). split; auto. simpl.
    apply String.eqb_neq in NE. now rewrite NE.
  - reflexivity.
Qed.

(** C6.  On a table whose column HOURLYPrecip holds a string other than the
    sentinel, lines 50-54 end normally; and when they do they leave in the
    column, cell by cell: ["0.00"] where the cell was the token ["T"]; NaN
    where it was a string with more than one ['.']; and nowhere the token
    ["T"] or a string with more than one ['.'].  The coercion then reads
    ["0.00"] as the parser does and keeps NaN. *)
Theorem precip_normalized (df : DataFrame pyobj) (precip : list pyobj) :
  pd.getitem df "HOURLYPrecip" = Ok precip ->
  (forall s, In (PyStr s) precip -> s <> "*" -> exists out, replace_markers df = Ok out) /\
  (forall out,
      replace_markers df = Ok out ->
      pd.getitem out "HOURLYPrecip" = Ok (map precip_cell precip)) /\
  precip_cell (PyStr "T") = PyStr "0.00" /\
  (forall s, 1 < str.count "." s -> precip_cell (PyStr s) = PyFloat np.nan) /\
  Forall (fun c => c <> PyStr "T" /\ forall s, c = PyStr s -> str.count "." s <= 1)
         (map precip_cell precip) /\
  (forall strtod x, strtod "0.00" = Some x ->
                    tryconvert strtod (precip_cell (PyStr "T")) = Ok x) /\
  (forall strtod s, 1 < str.count "." s ->
                    tryconvert strtod (precip_cell (PyStr s)) = Ok np.nan).
Proof.
  intro G. apply getitem_Ok in G.
  assert (forall s, 1 < str.count "." s -> precip_cell (PyStr s) = PyFloat np.nan) as Two.
  { intros s C. unfold precip_cell. cbn [pd.replace_cell].
    destruct (String.eqb s "*") eqn:E1.
    { apply String.eqb_eq in E1. subst s. simpl in C. lia. }
    cbn [pd.replace_cell].
    destruct (String.eqb s "T") eqn:E2.
    { apply String.eqb_eq in E2. subst s. simpl in C. lia. }
    apply gtb_of_nat_one in C. now rewrite C. }
  split; [ | split; [ | split; [ | split; [ | split; [ | split]]]]].
  - intros s I NE.
    destruct (replace_markers_columns df precip G (strings_left_In precip s I NE))
      as (out & E & _).
    eauto.
  - intros out E. destruct (replace_markers_Ok _ _ E) as (precip' & G' & SL).
    rewrite G in G'. injection G' as <-.
    destruct (replace_markers_columns df precip G SL) as (out' & E' & _ & _ & L & _).
    rewrite E in E'. injection E' as <-. now apply getitem_Ok.
  - reflexivity.
  - exact Two.
  - apply Forall_map, Forall_forall. intros c _. apply precip_cell_no_marker.
  - intros strtod x S. unfold tryconvert. simpl. now rewrite S.
  - intros strtod s C. now rewrite Two.
Qed.

(** ** Resampling, shift and first row (lines 63-64 and 69) *)

Lemma shift1_length {A : Type} (fill : A) (s : list A) :
  List.length (pd.shift1 fill s) = List.length s.
Proof.
  destruct s as [ | x tl]; auto.
  unfold pd.shift1. cbn [List.length]. f_equal.
  revert x. induction tl as [ | y tl IH]; intro x; auto.
  change (removelast (x :: y :: tl)) with (x :: removelast (y :: tl)).
  cbn [List.length]. f_equal. apply IH.
Qed.

Lemma ffill_from_length (s : list np.double) (prev : np.double) :
  List.length (pd.ffill_from prev s) = List.length s.
Proof.
  revert prev. induction s as [ | x tl IH]; intro prev; simpl; auto.
  destruct (np.isnan x); simpl; now rewrite IH.
Qed.

Lemma interpolate_from_length (s : list np.double) (prev : option np.double) (k : nat) :
  List.length (pd.interpolate_from prev k s) = List.length s.
Proof.
  revert prev k. induction s as [ | x tl IH]; intros prev k; simpl; auto.
  destruct (np.isnan x); simpl; now rewrite IH.
Qed.

Lemma last_In {A : Type} (l : list A) (x : A) : In (last l x) (x :: l).
Proof.
  revert x. induction l as [ | y tl IH]; intro x; [now left | ].
  destruct tl as [ | z tl'].
  - right. now left.
  - change (last (y :: z :: tl') x) with (last (z :: tl') x).
    destruct (IH x) as [E | I]; [now left | right; now right].
Qed.

(** The bins of a table that has a row: the bin of the earliest row and the
    ones after it, in order, at least one. *)
Lemma bins_shape (freq : Z) (ts : list Timestamp) :
  (0 < freq)%Z -> ts <> [] ->
  exists lo n,
    pd.bins freq ts = map (fun i => (lo + Z.of_nat i)%Z) (seq 0 (S n)).
Proof.
  intros F NE. unfold pd.bins.
  match goal with
  | |- context [pd.sort_rows ?key ts] => set (sorted := pd.sort_rows key ts)
  end.
  assert (Permutation sorted ts) as Pm by apply sort_rows_perm.
  assert (StronglySorted (fun a b : Z => (a <= b)%Z) sorted) as St
    by apply (sort_rows_sorted (fun t : Z => t)).
  destruct sorted as [ | t0 tl].
  - apply Permutation_nil in Pm. contradiction.
  - exists (pd.bin_of freq t0).
    exists (Z.to_nat (pd.bin_of freq (last tl t0) - pd.bin_of freq t0)).
    cbv zeta. do 2 f_equal.
    assert (t0 <= last tl t0)%Z as L.
    { destruct (last_In tl t0) as [<- | I]; [lia | ].
      apply StronglySorted_inv in St. destruct St as [_ Fa].
      rewrite Forall_forall in Fa. now apply Fa. }
    assert (pd.bin_of freq t0 <= pd.bin_of freq (last tl t0))%Z
      by (apply Z.div_le_mono; lia).
    lia.
Qed.

Lemma select_all {A : Type} (keep : list bool) (s : list A) :
  Forall (fun b => b = true) keep -> List.length s = List.length keep ->
  pd.select keep s = s.
Proof.
  intro F. revert s. induction F as [ | b keep -> F IH]; intros [ | x s]; simpl;
    try discriminate; auto.
  intro L. f_equal. apply IH. lia.
Qed.

(** Dropping a label that only the first row carries removes the first row. *)
Lemma select_unique_first {A : Type} (label : Timestamp) (rest : list Timestamp) (s : list A) :
  ~ In label rest ->
  List.length s = S (List.length rest) ->
  pd.select (map (fun t => negb (Z.eqb t label)) (label :: rest)) s = tl s.
Proof.
  intros NI L. destruct s as [ | x s]; [discriminate | ].
  cbn [map pd.select tl]. rewrite Z.eqb_refl. cbn [negb].
  apply select_all.
  - apply Forall_map, Forall_forall. intros t I.
    apply negb_true_iff, Z.eqb_neq. intros ->. contradiction.
  - rewrite length_map. simpl in L. unfold Timestamp in *. lia.
Qed.

(** The labels of the resampled table: the first stands nowhere else. *)
Lemma hourly_labels_first (lo : Z) (n : nat) :
  ~ In ((lo + Z.of_nat 0) * pd.hour)%Z
       (map (fun b => (b * pd.hour)%Z) (map (fun i => (lo + Z.of_nat i)%Z) (seq 1 n))).
Proof.
  rewrite map_map, in_map_iff. intros (i & E & I). apply in_seq in I.
  unfold pd.hour in E. lia.
Qed.

(** *** Names, labels and termination of the stages *)

Lemma setitem_names {A : Type} (d : DataFrame A) (n : string) (v : list A) :
  In n (names d) -> names (pd.setitem d n v) = names d.
Proof. apply assign_names. Qed.


Lemma replace_markers_names (df out : DataFrame pyobj) :
  replace_markers df = Ok out -> names out = names df /\ index out = index df.
Proof.
  intro H. destruct (replace_markers_Ok _ _ H) as (precip & L & SL).
  destruct (replace_markers_columns df precip L SL) as (out' & E & N & I & _).
  rewrite H in E. injection E as <-. auto.
Qed.

Lemma bound_visibility_names (d out : DataFrame np.double) :
  bound_visibility d = Ok out -> names out = names d /\ index out = index d.
Proof.
  unfold bound_visibility, pd.loc_set. intro H.
  apply bind_Ok in H. destruct H as (v & G & H).
  rewrite G in H. simpl in H. injection H as <-. split; auto.
  apply setitem_names, lookup_names. apply getitem_Ok in G. eauto.
Qed.


Lemma normalize_names (strtod : string -> option np.double)
    (raw : DataFrame pyobj) (d : DataFrame np.double) :
  normalize strtod raw = Ok d -> names d = names raw /\ index d = index raw.
Proof.
  unfold normalize. intro H.
  apply bind_Ok in H. destruct H as (d1 & H1 & H).
  apply bind_Ok in H. destruct H as (d2 & H2 & H3).
  apply replace_markers_names in H1. destruct H1 as [N1 I1].
  rewrite convert_to_float_Ok in H2. injection H2 as <-.
  apply bound_visibility_names in H3. destruct H3 as [N3 I3].
  rewrite N3, I3. unfold names, pd.map_columns. cbn [columns index].
  rewrite map_columns_names. auto.
Qed.


Lemma downsample_names (d : DataFrame np.double) : names (downsample d) = names d.
Proof.
  unfold names, downsample, pd.shift, pd.resample_last, pd.map_columns. cbn [columns].
  rewrite map_columns_names.
  apply (map_columns_names
           (fun s => map (fun b => pd.last_valid (pd.group pd.hour (index d) s b))
                         (pd.bins pd.hour (index d)))).
Qed.

Lemma interpolate_missing_names (d out : DataFrame np.double) :
  interpolate_missing d = Ok out -> names out = names d /\ index out = index d.
Proof.
  unfold interpolate_missing. intro H.
  apply bind_Ok in H. destruct H as (t & G & H). injection H as <-. split; auto.
  unfold names, pd.interpolate, pd.map_columns. cbn [columns].
  rewrite map_columns_names. apply setitem_names, lookup_names.
  apply getitem_Ok in G. eauto.
Qed.


Lemma drop_label_names {A : Type} (d : DataFrame A) (label : Timestamp) :
  names (pd.drop_label d label) = names d.
Proof. unfold names, pd.drop_label. cbn [columns]. apply map_columns_names. Qed.

(** The table that line 64 leaves has a first row, whose label no other row
    carries, as soon as the table it resamples has a row. *)
Lemma downsample_labels (d : DataFrame np.double) :
  index d <> [] ->
  exists label rest, index (downsample d) = label :: rest /\ ~ In label rest.
Proof.
  intro NE. rewrite downsample_index.
  destruct (bins_shape pd.hour (index d)) as (lo & n & ->); [reflexivity | exact NE | ].
  cbn [seq map]. eexists. eexists. split; [reflexivity | ].
  apply hourly_labels_first.
Qed.

Lemma downsample_lengths (d : DataFrame np.double) (n : string) (s : list np.double) :
  pd.lookup n (columns (downsample d)) = Some s ->
  List.length s = List.length (index (downsample d)).
Proof.
  rewrite downsample_lookup, downsample_index.
  destruct (pd.lookup n (columns d)); [ | discriminate].
  cbn [option_map]. intro H. injection H as <-.
  now rewrite shift1_length, !length_map.
Qed.

Lemma interpolate_missing_lengths (d out : DataFrame np.double) :
  (forall n s, pd.lookup n (columns d) = Some s -> List.length s = List.length (index d)) ->
  interpolate_missing d = Ok out ->
  forall n s, pd.lookup n (columns out) = Some s -> List.length s = List.length (index out).
Proof.
  intros Len H n s L.
  apply interpolate_missing_Ok in H. destruct H as (t & LT & -> & LP & LO).
  destruct (String.eqb "HOURLYPressureTendency" n) eqn:E.
  - apply String.eqb_eq in E. subst n. rewrite LP in L. injection L as <-.
    unfold pd.interpolate_linear, pd.ffill.
    rewrite interpolate_from_length, ffill_from_length. eauto.
  - rewrite (LO n E) in L. destruct (pd.lookup n (columns d)) as [s0 | ] eqn:L0;
      [ | discriminate].
    injection L as <-. unfold pd.interpolate_linear.
    rewrite interpolate_from_length. eauto.
Qed.

(** Line 69 on a table whose first label is unique: the first row goes, and
    only it. *)
Lemma drop_first_row_unique (d : DataFrame np.double) (label : Timestamp) (rest : list Timestamp) :
  index d = label :: rest -> ~ In label rest ->
  (forall n s, pd.lookup n (columns d) = Some s -> List.length s = List.length (index d)) ->
  exists out,
    drop_first_row d = Ok out /\
    index out = rest /\
    names out = names d /\
    forall n, pd.lookup n (columns out) = option_map (@tl np.double) (pd.lookup n (columns d)).
Proof.
  intros E NI Len. unfold drop_first_row, pd.first_label. rewrite E. cbn [bind].
  eexists. split; [reflexivity | ]. split; [ | split].
  - unfold pd.drop_label. cbn [index]. rewrite E.
    rewrite (select_unique_first label rest (label :: rest)); auto.
  - apply drop_label_names.
  - intro n. rewrite drop_label_lookup.
    destruct (pd.lookup n (columns d)) as [s | ] eqn:L; auto.
    cbn [option_map]. f_equal. rewrite E. apply select_unique_first; auto.
    rewrite (Len n s L), E. reflexivity.
Qed.

(** *** The stages composed *)

Section Composed.
Variable strtod : string -> option np.double.

Lemma fill_Ok (raw : DataFrame pyobj) (d : DataFrame np.double) :
  fill strtod raw = Ok d ->
  exists normalized filled,
    normalize strtod raw = Ok normalized /\
    interpolate_missing (downsample normalized) = Ok filled /\
    index raw <> [] /\
    index filled = index (downsample normalized) /\
    index d = tl (index filled) /\
    names d = names raw /\
    forall n, pd.lookup n (columns d) = option_map (@tl np.double) (pd.lookup n (columns filled)).
Proof.
  unfold fill. intro H.
  apply bind_Ok in H. destruct H as (normalized & H1 & H).
  apply bind_Ok in H. destruct H as (filled & H2 & H3).
  exists normalized, filled.
  destruct (normalize_names _ _ _ H1) as [N1 I1].
  destruct (interpolate_missing_names _ _ H2) as [N2 I2].
  assert (index raw <> []) as NE.
  { intro E. apply drop_first_row_Ok in H3. destruct H3 as (label & rest & E3 & _).
    rewrite I2, downsample_index, I1, E in E3. discriminate. }
  destruct (downsample_labels normalized) as (label & rest & E & NI); [congruence | ].
  destruct (drop_first_row_unique filled label rest) as (d' & H3' & I3 & N3 & L3);
    [congruence | exact NI | | ].
  { apply (interpolate_missing_lengths (downsample normalized)); auto.
    apply downsample_lengths. }
  rewrite H3 in H3'. injection H3' as <-.
  repeat split; auto.
  - rewrite I3, I2, E. reflexivity.
  - rewrite N3, N2, downsample_names. exact N1.
Qed.


(** What the two encodings make of the table of line 69. *)
Lemma clean_Ok (raw : DataFrame pyobj) (out : DataFrame np.double) :
  clean strtod raw = Ok out ->
  exists d direction tendency,
    fill strtod raw = Ok d /\
    pd.lookup "HOURLYWindDirection" (columns d) = Some direction /\
    pd.lookup "HOURLYPressureTendency" (columns d) = Some tendency /\
    index out = index d /\
    pd.lookup "HOURLYWindDirectionSin" (columns out) =
      Some (map (fun x => np.sin (radians x)) direction) /\
    pd.lookup "HOURLYWindDirectionCos" (columns out) =
      Some (map (fun x => np.cos (radians x)) direction) /\
    pd.lookup "HOURLYPressureTendencyIncr" (columns out) = Some (map Incr tendency) /\
    pd.lookup "HOURLYPressureTendencyDecr" (columns out) = Some (map Decr tendency) /\
    pd.lookup "HOURLYPressureTendencyCons" (columns out) = Some (map Cons tendency) /\
    pd.lookup "HOURLYWindDirection" (columns out) = None /\
    pd.lookup "HOURLYPressureTendency" (columns out) = None.
Proof.
  unfold clean. intro H.
  apply bind_Ok in H. destruct H as (d & H6 & H).
  apply bind_Ok in H. destruct H as (d7 & H7 & H8).
  destruct (encode_wind_direction_Ok _ _ H7) as (direction & LD).
  destruct (encode_wind_direction_columns _ _ LD) as (d7' & E7 & I7 & LS & LC & LN & K7).
  rewrite H7 in E7. injection E7 as <-.
  destruct (encode_pressure_tendency_Ok _ _ H8) as (tendency & LT).
  destruct (encode_pressure_tendency_columns _ _ LT)
    as (out' & E8 & I8 & LI & LDc & LCo & LNo & K8).
  rewrite H8 in E8. injection E8 as <-.
  exists d, direction, tendency.
  rewrite K7 in LT by reflexivity.
  repeat split; auto; try congruence.
  - rewrite K8 by reflexivity. exact LS.
  - rewrite K8 by reflexivity. exact LC.
  - rewrite K8 by reflexivity. exact LN.
Qed.


End Composed.

(** [GroupBy.last] gives NaN for a group of NaN only, and otherwise the value
    of the group after which only NaN stands. *)
Lemma last_valid_split (g : list np.double) :
  (pd.last_valid g = np.NaN /\ Forall (fun x => x = np.NaN) g) \/
  (pd.last_valid g <> np.NaN /\
   exists before after,
     g = before ++ pd.last_valid g :: after /\ Forall (fun x => x = np.NaN) after).
Proof.
  induction g as [ | x tl IH]; simpl.
  - left. auto.
  - destruct IH as [[E F] | (NE & before & after & E & F)].
    + rewrite E. destruct x; [left; auto | right .. ];
        (split; [discriminate | exists [], tl; auto]).
    + right. destruct (pd.last_valid tl) eqn:L; try contradiction;
        (split; [discriminate | exists (x :: before), after; split; auto;
                                 simpl; now rewrite <- E]).
Qed.



(** ** Forward fill and interpolation, value by value *)

(** [s.fillna(method='ffill')] puts in each row the last value at or before
    the row that is not NaN, and NaN where there is none. *)
Lemma ffill_from_nth (s : list np.double) (prev : np.double) (i : nat) :
  nth_error (pd.ffill_from prev s) i =
  option_map (fun _ => match pd.last_valid (firstn (S i) s) with
                       | np.NaN => prev
                       | y => y
                       end) (nth_error s i).
Proof.
  revert prev i. induction s as [ | x tl IH]; intros prev i.
  - destruct i; reflexivity.
  - destruct i as [ | j].
    + simpl. destruct x; reflexivity.
    + change (firstn (S (S j)) (x :: tl)) with (x :: firstn (S j) tl).
      cbn [pd.ffill_from pd.last_valid nth_error].
      destruct (np.isnan x) eqn:N; cbn [nth_error]; rewrite IH;
        destruct (nth_error tl j); cbn [option_map]; auto;
        destruct (pd.last_valid (firstn (S j) tl)); auto;
        destruct x; try discriminate; auto.
Qed.

Lemma ffill_nth (s : list np.double) (i : nat) :
  nth_error (pd.ffill s) i =
  option_map (fun _ => pd.last_valid (firstn (S i) s)) (nth_error s i).
Proof.
  unfold pd.ffill. rewrite ffill_from_nth.
  destruct (nth_error s i); cbn [option_map]; auto.
  now destruct (pd.last_valid (firstn (S i) s)).
Qed.

Lemma ffill_from_valid (s : list np.double) (prev : np.double) :
  np.isnan prev = false ->
  Forall (fun x => np.isnan x = false) (pd.ffill_from prev s).
Proof.
  revert prev. induction s as [ | x tl IH]; intros prev V; simpl; [constructor | ].
  destruct (np.isnan x) eqn:N; constructor; auto.
Qed.

Lemma interpolate_from_valid (s : list np.double) (prev : option np.double) (k : nat) :
  Forall (fun x => np.isnan x = false) s -> pd.interpolate_from prev k s = s.
Proof.
  intro F. revert prev k. induction F as [ | x tl V F IH]; intros prev k; simpl; auto.
  rewrite V. now rewrite IH.
Qed.

(** Interpolation changes nothing in a column that was filled forward. *)
Lemma interpolate_ffill (s : list np.double) :
  pd.interpolate_linear (pd.ffill s) = pd.ffill s.
Proof.
  unfold pd.interpolate_linear, pd.ffill. generalize 0 as k.
  induction s as [ | x tl IH]; intro k; simpl; auto.
  destruct (np.isnan x) eqn:N; simpl.
  - now rewrite IH.
  - rewrite N. f_equal. apply interpolate_from_valid. now apply ffill_from_valid.
Qed.

(** Neither method fills a gap that no valid value precedes. *)
Lemma leading_gap (s : list np.double) (i : nat) :
  (forall j, j <= i -> nth_error s j = Some np.NaN) ->
  nth_error (pd.ffill s) i = Some np.NaN /\
  nth_error (pd.interpolate_linear s) i = Some np.NaN.
Proof.
  unfold pd.ffill, pd.interpolate_linear. generalize 0 as k. revert i.
  induction s as [ | x tl IH]; intros i k H.
  - specialize (H 0 (Nat.le_0_l i)). discriminate.
  - pose proof (H 0 (Nat.le_0_l i)) as H0. simpl in H0. injection H0 as ->.
    destruct i as [ | i]; simpl; auto.
    apply IH. intros j J. apply (H (S j)). lia.
Qed.

Lemma next_valid_run (n : nat) (b : np.double) (post : list np.double) :
  np.isnan b = false ->
  pd.next_valid (repeat np.NaN n ++ b :: post) = Some (n, b).
Proof.
  intro V. induction n as [ | n IH]; simpl.
  - now rewrite V.
  - now rewrite IH.
Qed.

(** A run of NaN between two valid values takes the values of the line
    through them, by row position. *)
Lemma interpolate_run (n : nat) (a b : np.double) (post : list np.double) (k : nat) :
  np.isnan b = false ->
  pd.interpolate_from (Some a) k (repeat np.NaN n ++ b :: post) =
  map (fun j => pd.interp_point a b (k + n) (k + j)) (seq 0 n)
  ++ b :: pd.interpolate_from (Some b) 1 post.
Proof.
  intro V. revert k. induction n as [ | n IH]; intro k.
  - simpl. now rewrite V.
  - cbn [repeat app pd.interpolate_from np.isnan]. rewrite (next_valid_run n b post V).
    rewrite IH. cbn [seq map app]. rewrite Nat.add_0_r. f_equal.
    f_equal. rewrite <- seq_shift, map_map. apply map_ext. intro j.
    now rewrite !Nat.add_succ_r.
Qed.

Lemma interpolate_valid_app (pre : list np.double) (a : np.double) (rest : list np.double)
    (prev : option np.double) (k : nat) :
  np.isnan a = false ->
  exists head,
    List.length head = List.length pre /\
    pd.interpolate_from prev k (pre ++ a :: rest) =
    head ++ a :: pd.interpolate_from (Some a) 1 rest.
Proof.
  intro V. revert prev k. induction pre as [ | x pre IH]; intros prev k.
  - exists []. simpl. now rewrite V.
  - cbn [app pd.interpolate_from]. destruct (np.isnan x).
    + destruct (IH prev (S k)) as (head & L & ->).
      eexists (_ :: head). split; [simpl; now rewrite L | reflexivity].
    + destruct (IH (Some x) 1) as (head & L & ->).
      exists (x :: head). split; [simpl; now rewrite L | reflexivity].
Qed.

Lemma interpolate_between (pre : list np.double) (a : np.double) (n : nat)
    (b : np.double) (post : list np.double) :
  np.isnan a = false -> np.isnan b = false ->
  exists head,
    List.length head = List.length pre /\
    pd.interpolate_linear (pre ++ a :: repeat np.NaN n ++ b :: post) =
    head ++ a :: map (fun j => pd.interp_point a b (S n) (S j)) (seq 0 n)
         ++ b :: pd.interpolate_from (Some b) 1 post.
Proof.
  intros Va Vb. unfold pd.interpolate_linear.
  destruct (interpolate_valid_app pre a (repeat np.NaN n ++ b :: post) None 0 Va)
    as (head & L & ->).
  exists head. split; auto. now rewrite interpolate_run.
Qed.

Lemma nth_error_tail {A : Type} (l : list A) (i : nat) :
  nth_error (tl l) i = nth_error l (S i).
Proof. destruct l; destruct i; reflexivity. Qed.

(** The columns of the table of line 69, from those of the shifted table. *)
Lemma fill_columns
    (strtod : string -> option np.double)
    (raw : DataFrame pyobj) (normalized d : DataFrame np.double) :
  normalize strtod raw = Ok normalized ->
  fill strtod raw = Ok d ->
  (exists tendency,
      pd.lookup "HOURLYPressureTendency" (columns (downsample normalized)) = Some tendency /\
      pd.lookup "HOURLYPressureTendency" (columns d) = Some (tl (pd.ffill tendency))) /\
  (forall n,
      String.eqb "HOURLYPressureTendency" n = false ->
      pd.lookup n (columns d) =
      option_map (fun s => tl (pd.interpolate_linear s))
                 (pd.lookup n (columns (downsample normalized)))).
Proof.
  intros N F.
  destruct (fill_Ok _ _ _ F) as (normalized' & filled & N' & IM & _ & _ & _ & _ & LD).
  rewrite N in N'. injection N' as <-.
  apply interpolate_missing_Ok in IM. destruct IM as (t & LT & _ & LP & LO).
  rewrite interpolate_ffill in LP. split.
  - exists t. split; auto. now rewrite LD, LP.
  - intros n NE. rewrite LD, (LO n NE).
    now destruct (pd.lookup n (columns (downsample normalized))).
Qed.

(** ** The indicators of the pressure tendency *)

Lemma last_valid_nan (g : list np.double) :
  pd.last_valid g = np.NaN -> Forall (fun x => x = np.NaN) g.
Proof.
  intro E. destruct (last_valid_split g) as [[_ F] | [NE _]]; [exact F | contradiction].
Qed.

Lemma all_nan_last_valid (g : list np.double) :
  Forall (fun x => x = np.NaN) g -> pd.last_valid g = np.NaN.
Proof. induction 1 as [ | x tl -> F IH]; simpl; auto. now rewrite IH. Qed.

Lemma firstn_Forall {A : Type} (P : A -> Prop) (n : nat) (l : list A) :
  Forall P l -> Forall P (firstn n l).
Proof.
  intro F. revert n. induction F as [ | x tl Px F IH]; intros [ | n]; simpl;
    constructor; auto.
Qed.

(** After a forward fill the missing values are the leading ones. *)
Lemma ffill_leading (s : list np.double) (i j : nat) :
  i <= j ->
  nth_error (pd.ffill s) j = Some np.NaN ->
  nth_error (pd.ffill s) i = Some np.NaN.
Proof.
  intros Le. rewrite !ffill_nth.
  destruct (nth_error s j) eqn:Ej; [ | discriminate]. cbn [option_map].
  intro H. injection H as H. apply last_valid_nan in H.
  destruct (nth_error s i) eqn:Ei.
  - cbn [option_map]. f_equal. apply all_nan_last_valid.
    replace (firstn (S i) s) with (firstn (S i) (firstn (S j) s)).
    + now apply firstn_Forall.
    + rewrite firstn_firstn. f_equal. lia.
  - apply nth_error_None in Ei.
    assert (j < List.length s) by (apply nth_error_Some; congruence). lia.
Qed.

(** C4.  In every row of the cleaned table the three indicators follow the
    tendency code of the row in the table of line 69, which is the code
    filled forward: Incr is 1.0 and the others 0.0 for a code in 0-3, Decr is
    1.0 and the others 0.0 for a code in 5-8, Cons is 1.0 and the others 0.0
    for the code 4, and all three are 0.0 where the code is missing; the rows
    of a missing code are leading rows. *)
Theorem pressure_tendency_one_hot
    (strtod : string -> option np.double)
    (raw : DataFrame pyobj) (d out : DataFrame np.double) (tendency : list np.double) :
  fill strtod raw = Ok d ->
  clean strtod raw = Ok out ->
  pd.getitem d "HOURLYPressureTendency" = Ok tendency ->
  exists incr_col decr_col cons_col,
    pd.getitem out "HOURLYPressureTendencyIncr" = Ok incr_col /\
    pd.getitem out "HOURLYPressureTendencyDecr" = Ok decr_col /\
    pd.getitem out "HOURLYPressureTendencyCons" = Ok cons_col /\
    (forall i x,
        nth_error tendency i = Some x ->
        exists a b c,
          nth_error incr_col i = Some a /\
          nth_error decr_col i = Some b /\
          nth_error cons_col i = Some c /\
          (contains x [0; 1; 2; 3]%Z = true -> a = one /\ b = zero /\ c = zero) /\
          (contains x [5; 6; 7; 8]%Z = true -> a = zero /\ b = one /\ c = zero) /\
          (np.eqb x (np.of_Z 4) = true -> a = zero /\ b = zero /\ c = one) /\
          (x = np.NaN -> a = zero /\ b = zero /\ c = zero)) /\
    (forall i j,
        i <= j -> nth_error tendency j = Some np.NaN -> nth_error tendency i = Some np.NaN).
Proof.
  intros F C G. apply getitem_Ok in G.
  destruct (clean_Ok _ _ _ C) as (d' & direction & t & F' & _ & LT & _ & _ & _ & LI & LD & LC & _).
  rewrite F in F'. injection F' as <-. rewrite G in LT. injection LT as <-.
  exists (map Incr tendency), (map Decr tendency), (map Cons tendency).
  split; [now apply getitem_Ok | ]. split; [now apply getitem_Ok | ].
  split; [now apply getitem_Ok | ]. split.
  - intros i x E. exists (Incr x), (Decr x), (Cons x).
    rewrite !nth_error_map, E. cbn [option_map].
    split; [reflexivity | ]. split; [reflexivity | ]. split; [reflexivity | ].
    unfold Incr, Decr, Cons. rewrite eqb_contains.
    split; [ | split; [ | split]].
    + intro H. rewrite H.
      destruct (contains x [5; 6; 7; 8]%Z) eqn:D; [two_tests | ].
      destruct (contains x [4]%Z) eqn:K; [two_tests | auto].
    + intro H. rewrite H.
      destruct (contains x [0; 1; 2; 3]%Z) eqn:D; [two_tests | ].
      destruct (contains x [4]%Z) eqn:K; [two_tests | auto].
    + intro H. rewrite H.
      destruct (contains x [0; 1; 2; 3]%Z) eqn:D; [two_tests | ].
      destruct (contains x [5; 6; 7; 8]%Z) eqn:K; [two_tests | auto].
    + intros ->. now rewrite !contains_nan.
  - destruct (fill_Ok _ _ _ F) as (normalized & _ & N & _).
    destruct (fill_columns strtod raw normalized d N F) as [(t & _ & LP) _].
    rewrite G in LP. injection LP as ->.
    intros i j Le. rewrite !nth_error_tail. apply ffill_leading. lia.
Qed.

(** ** The wind direction (lines 71-74) *)

Lemma radians_finite (u : np.finite) :
  exists w, radians (np.Fin u) = np.Fin w /\ np.toR w = (np.toR u * (2 * PI / 360))%R.
Proof.
  unfold radians, np.pi, np.of_Z.
  assert (np.div (np.mul (np.Fin (np.Rat (inject_Z 2))) (np.Fin (np.Real PI)))
                 (np.Fin (np.Rat (inject_Z 360)))
          = np.Fin (np.Real (Q2R (inject_Z 2) * PI / Q2R (inject_Z 360)))) as ->
    by reflexivity.
  cbn [np.mul]. eexists. split; [reflexivity | ].
  rewrite toR_mul. cbn [np.toR]. now rewrite !Q2R_inject_Z.
Qed.

(** The features of a finite angle: the sine and the cosine of the angle in
    radians, a point of the unit circle. *)
Lemma wind_features (u : np.finite) :
  exists s c,
    np.sin (radians (np.Fin u)) = np.Fin s /\
    np.cos (radians (np.Fin u)) = np.Fin c /\
    np.toR s = Rtrigo_def.sin (np.toR u * (2 * PI / 360)) /\
    np.toR c = Rtrigo_def.cos (np.toR u * (2 * PI / 360)) /\
    ((np.toR s)² + (np.toR c)² = 1)%R.
Proof.
  destruct (radians_finite u) as (w & -> & E).
  cbn [np.sin np.cos]. eexists. eexists.
  split; [reflexivity | ]. split; [reflexivity | ].
  cbn [np.toR]. rewrite E. repeat split. apply sin2_cos2.
Qed.

(* ================================================================== *)
(** * The pipeline on the sample *)

Lemma sample_normalize : normalize decimal_literal sample = Ok sample_normalized.
Proof. vm_compute. reflexivity. Qed.

Lemma sample_fill : fill decimal_literal sample = Ok sample_filled.
Proof. vm_compute. reflexivity. Qed.

Lemma sample_clean : clean decimal_literal sample = Ok sample_cleaned.
Proof. vm_compute. reflexivity. Qed.

(** Visibility: ["*"] and 12 give way, the third hour is interpolated. *)
Example sample_visibility :
  map missing_or_within (column sample_cleaned "HOURLYVISIBILITY") = [true; true; true; true] /\
  Forall2 (fun x q => exists u, x = np.Fin u /\ np.toR u = Q2R q)
          (column sample_cleaned "HOURLYVISIBILITY")
          [5; Qmake 20 3; Qmake 25 3; 10]%Q.
Proof.
  split; [vm_compute; reflexivity | ].
  assert (forall a b : Q, Qeq_bool a b = true ->
                          exists u, np.Fin (np.Rat a) = np.Fin u /\ np.toR u = Q2R b) as E.
  { intros a b H. exists (np.Rat a). split; auto. simpl. apply Qeq_eqR.
    now apply Qeq_bool_iff. }
  vm_compute column. repeat constructor; apply E; reflexivity.
Qed.

(** Precipitation: ["T"] is read as 0, ["0.00.1"] and ["*"] as missing. *)
Example sample_precip :
  map precip_cell [PyStr "T"; PyStr "0.00.1"; PyStr "0.02"; PyStr "*"; PyStr "0.10"] =
  [PyStr "0.00"; PyFloat np.NaN; PyStr "0.02"; PyFloat np.NaN; PyStr "0.10"] /\
  tryconvert decimal_literal (PyStr "0.00") = Ok (np.Fin (np.Rat (Qmake 0 100))) /\
  tryconvert decimal_literal (PyStr "0.00.1") = Ok np.NaN /\
  tryconvert decimal_literal (PyStr "30.00s") = Ok np.NaN.
Proof.
  split; [vm_compute; reflexivity | ].
  split; [vm_compute; reflexivity | ].
  split; vm_compute; reflexivity.
Qed.

(** A precipitation column of numbers only has no [.str]: line 54 raises and
    nothing is written. *)
Example numbers_only_precip :
  replace_markers sample_dry = Raise AttributeError /\
  main decimal_literal no_size (mkNamespace "jfk_weather.csv" false) sample_dry
  = ([], Raise AttributeError).
Proof. split; vm_compute; reflexivity. Qed.

(** C9.  On a table of one hour the flag changes how the run ends.  Both
    runs write the same file, whose table has no row; the run without the
    flag ends normally; the verbose run prints four lines and raises
    IndexError at [index[0]] of line 94. *)
Example one_hour_verbose :
  files_written (main decimal_literal no_size (mkNamespace "jfk_weather.csv" true)
                      sample_one_hour) =
  files_written (main decimal_literal no_size (mkNamespace "jfk_weather.csv" false)
                      sample_one_hour) /\
  (exists d,
      files_written (main decimal_literal no_size (mkNamespace "jfk_weather.csv" false)
                          sample_one_hour) = [("jfk_weather_cleaned.csv", d)] /\
      index d = []) /\
  snd (main decimal_literal no_size (mkNamespace "jfk_weather.csv" false) sample_one_hour)
  = Ok tt /\
  snd (main decimal_literal no_size (mkNamespace "jfk_weather.csv" true) sample_one_hour)
  = Raise IndexError /\
  List.length (fst (main decimal_literal no_size (mkNamespace "jfk_weather.csv" true)
                         sample_one_hour)) = 5.
Proof.
  split; [vm_compute; reflexivity | ].
  split; [eexists; split; vm_compute; reflexivity | ].
  split; [vm_compute; reflexivity | ].
  split; vm_compute; reflexivity.
Qed.

(** C1.  On a path with two ['.'] the run does not complete: the cleaning
    ends normally, [split] cuts at every ['.'], the unpacking of line 86
    into two names raises ValueError, and no file is written, neither
    [data_cleaned.csv] nor another.  A path that starts with [./] has two
    ['.'] as well. *)
Lemma output_path_two_dots :
  clean decimal_literal sample = Ok sample_cleaned /\
  str.split "." "data.v2.csv" = ["data"; "v2"; "csv"] /\
  output_path "data.v2.csv" = Raise ValueError /\
  main decimal_literal no_size (mkNamespace "data.v2.csv" false) sample
  = ([], Raise ValueError) /\
  files_written (main decimal_literal no_size (mkNamespace "data.v2.csv" false) sample) = [] /\
  main decimal_literal no_size (mkNamespace "./jfk_weather.csv" false) sample
  = ([], Raise ValueError).
Proof.
  split; [vm_compute; reflexivity | ].
  split; [vm_compute; reflexivity | ].
  split; [vm_compute; reflexivity | ].
  split; [vm_compute; reflexivity | ].
  split; vm_compute; reflexivity.
Qed.

(** C4 on the sample: the last row has the code 4. *)
Lemma pressure_tendency_one_hot_witness :
  exists incr_col decr_col cons_col,
    pd.getitem sample_cleaned "HOURLYPressureTendencyIncr" = Ok incr_col /\
    pd.getitem sample_cleaned "HOURLYPressureTendencyDecr" = Ok decr_col /\
    pd.getitem sample_cleaned "HOURLYPressureTendencyCons" = Ok cons_col /\
    nth_error incr_col 3 = Some zero /\
    nth_error decr_col 3 = Some zero /\
    nth_error cons_col 3 = Some one.
Proof.
  destruct (pressure_tendency_one_hot decimal_literal sample sample_filled sample_cleaned
              (column sample_filled "HOURLYPressureTendency"))
    as (incr_col & decr_col & cons_col & GI & GD & GC & Rows & _).
  - vm_compute. reflexivity.
  - vm_compute. reflexivity.
  - vm_compute. reflexivity.
  - destruct (Rows 3 (np.of_Z 4)) as (a & b & c & Ea & Eb & Ec & _ & _ & Four & _).
    + vm_compute. reflexivity.
    + destruct Four as (-> & -> & ->); [vm_compute; reflexivity | ].
      exists incr_col, decr_col, cons_col. repeat split; assumption.
Defined.


(** C6 on the precipitation column of the sample. *)
Lemma precip_normalized_witness :
  exists out,
    replace_markers sample = Ok out /\
    pd.getitem out "HOURLYPrecip" =
    Ok [PyStr "0.00"; PyFloat np.NaN; PyStr "0.02"; PyFloat np.NaN; PyStr "0.10"].
Proof.
  destruct (precip_normalized sample
              [PyStr "T"; PyStr "0.00.1"; PyStr "0.02"; PyStr "*"; PyStr "0.10"])
    as (Runs & Column & _).
  - reflexivity.
  - destruct (Runs "T") as (out & R); [now left | discriminate | ].
    exists out. split; [exact R | exact (Column out R)].
Defined.

(** C10 on a row whose code is 4.5. *)
Lemma tendency_indicators_exclusive_witness : count_ones [zero; zero; zero] <= 1.
Proof.
  apply (tendency_indicators_exclusive codes (or_empty (encode_pressure_tendency codes))
           (map Incr (column codes "HOURLYPressureTendency"))
           (map Decr (column codes "HOURLYPressureTendency"))
           (map Cons (column codes "HOURLYPressureTendency"))
           1 zero zero zero);
    vm_compute; reflexivity.
Defined.

(* ================================================================== *)
(** * Further properties *)

(** ** The output path and the file (lines 85-87) *)

Lemma split_one (c : ascii) (s b : string) :
  str.split c s = [b] -> s = b /\ str.count c b = 0.
Proof.
  revert b. induction s as [ | c' s IH]; simpl; intros b H.
  - injection H as <-. auto.
  - destruct (Ascii.eqb c' c) eqn:E.
    { injection H as _ H. pose proof (split_length c s) as L.
      rewrite H in L. discriminate. }
    destruct (str.split c s) as [ | piece pieces] eqn:S.
    + injection H as <-. simpl. rewrite E.
      pose proof (split_length c s) as L. rewrite S in L. discriminate.
    + injection H as <- ->. destruct (IH piece eq_refl) as [-> C].
      simpl. now rewrite E.
Qed.

Lemma split_two (c : ascii) (s a b : string) :
  str.split c s = [a; b] ->
  s = (a ++ String c b)%string /\ str.count c a = 0 /\ str.count c b = 0.
Proof.
  revert a. induction s as [ | c' s IH]; simpl; intros a H; [discriminate | ].
  destruct (Ascii.eqb c' c) eqn:E.
  - injection H as <- H. apply Ascii.eqb_eq in E. subst c'.
    apply split_one in H. destruct H as [-> C]. auto.
  - destruct (str.split c s) as [ | piece pieces] eqn:S; [discriminate | ].
    injection H as <- ->. destruct (IH piece eq_refl) as (-> & Ca & Cb).
    simpl. rewrite E. auto.
Qed.

(** X1.  Line 86 ends normally exactly on the paths [a.b] in which neither [a]
    nor [b] holds a ['.'], and gives [a_cleaned.csv]: whatever the extension
    was, it is dropped. *)
Theorem output_path_characterised (path out : string) :
  output_path path = Ok out <->
  exists a b,
    str.count "." a = 0 /\ str.count "." b = 0 /\
    path = (a ++ "." ++ b)%string /\ out = (a ++ "_cleaned.csv")%string.
Proof.
  split.
  - unfold output_path, unpack2. intro H.
    destruct (str.split "." path) as [ | a [ | b [ | c tl]]] eqn:S; try discriminate.
    simpl in H. injection H as <-.
    apply split_two in S. destruct S as (-> & Ca & Cb). exists a, b. auto.
  - intros (a & b & Ca & Cb & -> & ->). unfold output_path.
    change (a ++ "." ++ b)%string with (a ++ String "." b)%string.
    rewrite split_at_sep by exact Ca. rewrite split_no_sep by exact Cb. reflexivity.
Qed.

(** X2.  A run writes a file exactly when the cleaning ends normally and the path
    has exactly one ['.']; it never writes more than one; and a run that
    writes nothing prints nothing either. *)
Theorem file_written_iff
    (strtod : string -> option np.double) (getsizeof : DataFrame np.double -> Z)
    (args : Namespace) (df : DataFrame pyobj) :
  (files_written (main strtod getsizeof args df) <> [] <->
   (exists d, clean strtod df = Ok d) /\ str.count "." (filepath args) = 1) /\
  List.length (files_written (main strtod getsizeof args df)) <= 1 /\
  (files_written (main strtod getsizeof args df) = [] ->
   fst (main strtod getsizeof args df) = []).
Proof.
  rewrite main_files, main_events.
  pose proof (output_path_Ok_iff (filepath args)) as O.
  destruct (clean strtod df) as [d | e].
  - destruct (output_path (filepath args)) as [path | e].
    + split; [ | split; [simpl; lia | discriminate]].
      split; [ | discriminate]. intros _. split; [eauto | ]. apply O. eauto.
    + split; [ | split; [simpl; lia | reflexivity]].
      split; [congruence | ]. intros [_ C]. apply O in C. destruct C; discriminate.
  - split; [ | split; [simpl; lia | reflexivity]].
    split; [congruence | ]. intros [[d C] _]. discriminate.
Qed.

(** ** The indicators of a code (lines 77-79) *)

Lemma contains_app (x : np.double) (l l' : list Z) :
  contains x (l ++ l') = contains x l || contains x l'.
Proof. unfold contains. apply existsb_app. Qed.

(** X3.  Exactly one indicator is 1.0 when the value is one of the codes 0-8, and
    none is otherwise: a fraction, a code out of 0-8, an infinity or NaN gives
    a row of three 0.0. *)
Theorem indicator_count (x : np.double) :
  count_ones [Incr x; Decr x; Cons x] =
  if contains x [0; 1; 2; 3; 4; 5; 6; 7; 8]%Z then 1 else 0.
Proof.
  change [0; 1; 2; 3; 4; 5; 6; 7; 8]%Z with ([0; 1; 2; 3] ++ [4] ++ [5; 6; 7; 8])%Z.
  rewrite !contains_app. unfold Incr, Decr, Cons. rewrite eqb_contains.
  destruct (contains x [0; 1; 2; 3]%Z) eqn:I;
    destruct (contains x [5; 6; 7; 8]%Z) eqn:D;
    destruct (contains x [4]%Z) eqn:C;
    first [two_tests | vm_compute; reflexivity].
Qed.

(** ** The bounds of the visibility (lines 60-61) *)

Lemma bound_test (x : np.double) :
  np.gtb x (np.of_Z 10) || np.ltb x (np.of_Z 0) = negb (missing_or_within x).
Proof.
  destruct (np.gtb x (np.of_Z 10) || np.ltb x (np.of_Z 0)) eqn:T.
  - symmetry. apply negb_true_iff.
    destruct (missing_or_within x) eqn:W; auto.
    apply missing_or_within_spec in W. destruct W as [-> | (u & -> & B)];
      [discriminate | ].
    apply orb_true_iff in T. destruct T as [T | T].
    + change (np.fin_ltb (np.Rat (inject_Z 10)) u = true) in T.
      apply fin_ltb_spec in T. simpl in T. rewrite Q2R_inject_Z in T. lra.
    + change (np.fin_ltb u (np.Rat (inject_Z 0)) = true) in T.
      apply fin_ltb_spec in T. simpl in T. rewrite Q2R_inject_Z in T. lra.
  - apply kept_within in T. now rewrite T.
Qed.

(** X4.  Line 61 puts NaN exactly where the visibility is not NaN and not within
    the bounds, which are inclusive (0 and 10 stay; an infinity does not),
    and leaves every other column and the labels as they were. *)
Theorem visibility_bounds_inclusive (d out : DataFrame np.double) :
  bound_visibility d = Ok out ->
  exists v,
    pd.lookup "HOURLYVISIBILITY" (columns d) = Some v /\
    pd.lookup "HOURLYVISIBILITY" (columns out) =
      Some (map (fun x => if missing_or_within x then x else np.nan) v) /\
    (forall n, n <> "HOURLYVISIBILITY" ->
               pd.lookup n (columns out) = pd.lookup n (columns d)) /\
    index out = index d /\
    missing_or_within (np.of_Z 0) = true /\
    missing_or_within (np.of_Z 10) = true /\
    missing_or_within np.PInf = false /\
    missing_or_within np.NInf = false.
Proof.
  intro H. apply bound_visibility_Ok in H. destruct H as (v & L & I & LV & LO).
  exists v. split; [exact L | ]. split.
  - rewrite LV, mask_set_map. f_equal. apply map_ext. intro x.
    rewrite bound_test. now destruct (missing_or_within x).
  - split; [ | repeat split; auto].
    intros n NE. apply LO. apply String.eqb_neq. congruence.
Qed.

(** The sample: its visibility of 12 becomes NaN, its visibility of 10 stays. *)
Lemma visibility_bounds_inclusive_witness :
  exists v,
    pd.lookup "HOURLYVISIBILITY" (columns sample_converted) = Some v /\
    pd.lookup "HOURLYVISIBILITY" (columns sample_normalized) =
      Some (map (fun x => if missing_or_within x then x else np.nan) v) /\
    (forall n, n <> "HOURLYVISIBILITY" ->
               pd.lookup n (columns sample_normalized) =
               pd.lookup n (columns sample_converted)) /\
    index sample_normalized = index sample_converted /\
    missing_or_within (np.of_Z 0) = true /\
    missing_or_within (np.of_Z 10) = true /\
    missing_or_within np.PInf = false /\
    missing_or_within np.NInf = false.
Proof.
  apply (visibility_bounds_inclusive sample_converted sample_normalized).
  vm_compute. reflexivity.
Defined.

(** ** The columns of the cleaned table (lines 71-83) *)

Lemma assign_new_names {A : Type} (n : string) (v : list A) (cols : list (string * list A)) :
  ~ In n (map fst cols) -> map fst (pd.assign n v cols) = map fst cols ++ [n].
Proof.
  induction cols as [ | [n' c] tl IH]; simpl; auto.
  intro NI. destruct (String.eqb n' n) eqn:E.
  - apply String.eqb_eq in E. tauto.
  - simpl. rewrite IH; auto.
Qed.

Lemma drop_names {A : Type} (n : string) (cols : list (string * list A)) :
  map fst (filter (fun nc => negb (String.eqb (fst nc) n)) cols) =
  filter (fun m => negb (String.eqb m n)) (map fst cols).
Proof.
  induction cols as [ | [n' c] tl IH]; simpl; auto.
  destruct (String.eqb n' n); simpl; now rewrite IH.
Qed.

Lemma filter_twice {A : Type} (f g : A -> bool) (l : list A) :
  filter f (filter g l) = filter (fun x => g x && f x) l.
Proof.
  induction l as [ | x tl IH]; simpl; auto.
  destruct (g x); simpl; [destruct (f x); now rewrite IH | exact IH].
Qed.

Lemma assign_names_eq {A : Type} (n : string) (v : list A)
    (cols : list (string * list A)) (l : list string) :
  map fst cols = l -> In n l -> map fst (pd.assign n v cols) = l.
Proof. intros <- I. now apply assign_names. Qed.

Lemma assign_new_names_eq {A : Type} (n : string) (v : list A)
    (cols : list (string * list A)) (l : list string) :
  map fst cols = l -> ~ In n l -> map fst (pd.assign n v cols) = l ++ [n].
Proof. intros <- I. now apply assign_new_names. Qed.

Lemma encode_wind_direction_names (d out : DataFrame np.double) :
  encode_wind_direction d = Ok out ->
  ~ In "HOURLYWindDirectionSin" (names d) ->
  ~ In "HOURLYWindDirectionCos" (names d) ->
  names out =
  filter (fun m => negb (String.eqb m "HOURLYWindDirection")) (names d)
  ++ ["HOURLYWindDirectionSin"; "HOURLYWindDirectionCos"].
Proof.
  intros H NS NC. destruct (encode_wind_direction_Ok _ _ H) as (direction & L).
  revert H. unfold encode_wind_direction, pd.getitem, pd.drop_column, pd.setitem.
  cbn [columns index bind]. rewrite L; cbn [bind].
  rewrite lookup_assign_other by reflexivity. rewrite L; cbn [bind columns index].
  rewrite !lookup_assign_other by reflexivity. rewrite L.
  intro H. injection H as <-. unfold names in *. cbn [columns].
  rewrite drop_names, assign_new_names.
  - rewrite assign_new_names by exact NS.
    rewrite <- app_assoc, filter_app. reflexivity.
  - rewrite assign_new_names by exact NS. intro I. apply in_app_or in I.
    destruct I as [I | [I | []]]; [contradiction | discriminate].
Qed.

Lemma encode_pressure_tendency_names (d out : DataFrame np.double) :
  encode_pressure_tendency d = Ok out ->
  ~ In "HOURLYPressureTendencyIncr" (names d) ->
  ~ In "HOURLYPressureTendencyDecr" (names d) ->
  ~ In "HOURLYPressureTendencyCons" (names d) ->
  names out =
  filter (fun m => negb (String.eqb m "HOURLYPressureTendency")) (names d)
  ++ ["HOURLYPressureTendencyIncr"; "HOURLYPressureTendencyDecr";
      "HOURLYPressureTendencyCons"].
Proof.
  intros H NI ND NC. destruct (encode_pressure_tendency_Ok _ _ H) as (tendency & L).
  revert H. unfold encode_pressure_tendency, pd.getitem, pd.drop_column, pd.setitem.
  cbn [columns index bind].
  rewrite L; cbn [bind].
  rewrite lookup_assign_other by reflexivity. rewrite L; cbn [bind].
  rewrite !lookup_assign_other by reflexivity. rewrite L; cbn [bind].
  rewrite !lookup_assign_other by reflexivity. rewrite L; cbn [bind columns index].
  rewrite lookup_drop_other by reflexivity.
  rewrite !lookup_assign_other by reflexivity.
  rewrite lookup_assign_same; cbn [bind columns index].
  rewrite lookup_assign_other by reflexivity.
  rewrite lookup_drop_other by reflexivity.
  rewrite lookup_assign_other by reflexivity.
  rewrite lookup_assign_same; cbn [bind columns index].
  rewrite !lookup_assign_other by reflexivity.
  rewrite lookup_drop_other by reflexivity.
  rewrite lookup_assign_same; cbn [bind columns index].
  intro H. injection H as <-. unfold names in *. cbn [columns].
  assert (map fst
            (filter (fun nc : string * list np.double =>
                       negb (String.eqb (fst nc) "HOURLYPressureTendency"))
                    (pd.assign "HOURLYPressureTendencyCons" (map Cons tendency)
                       (pd.assign "HOURLYPressureTendencyDecr" (map Decr tendency)
                          (pd.assign "HOURLYPressureTendencyIncr" (map Incr tendency)
                             (columns d)))))
          = filter (fun m => negb (String.eqb m "HOURLYPressureTendency"))
                   (map fst (columns d))
            ++ ["HOURLYPressureTendencyIncr"; "HOURLYPressureTendencyDecr";
                "HOURLYPressureTendencyCons"]) as E.
  { rewrite drop_names.
    rewrite (assign_new_names_eq "HOURLYPressureTendencyCons" _ _
               ((map fst (columns d) ++ ["HOURLYPressureTendencyIncr"])
                ++ ["HOURLYPressureTendencyDecr"])).
    - rewrite <- !app_assoc, filter_app. reflexivity.
    - apply assign_new_names_eq.
      + now apply assign_new_names.
      + intro I. apply in_app_or in I. destruct I as [I | [I | []]];
          [contradiction | discriminate].
    - intro I. apply in_app_or in I. destruct I as [I | [I | []]]; [ | discriminate].
      apply in_app_or in I. destruct I as [I | [I | []]];
        [contradiction | discriminate]. }
  repeat (apply assign_names_eq; [ | apply in_or_app; right; simpl; tauto]).
  exact E.
Qed.

(** X5.  The cleaned table has the columns of the table read, in their order,
    without HOURLYWindDirection and HOURLYPressureTendency, followed by the
    five derived columns in the order of lines 72-79 (on a table that has
    none of that name yet). *)
Theorem cleaned_columns
    (strtod : string -> option np.double)
    (raw : DataFrame pyobj) (out : DataFrame np.double) :
  clean strtod raw = Ok out ->
  (forall n, In n derived_columns -> ~ In n (names raw)) ->
  names out =
  filter (fun m => negb (String.eqb m "HOURLYWindDirection")
                   && negb (String.eqb m "HOURLYPressureTendency")) (names raw)
  ++ derived_columns.
Proof.
  intros C Fresh. unfold clean in C.
  apply bind_Ok in C. destruct C as (d & F & C).
  apply bind_Ok in C. destruct C as (d7 & H7 & H8).
  destruct (fill_Ok _ _ _ F) as (_ & _ & _ & _ & _ & _ & _ & N & _).
  assert (forall n, In n derived_columns -> ~ In n (names d)) as Fresh'
    by (intros n I; rewrite N; now apply Fresh).
  apply encode_wind_direction_names in H7; try (apply Fresh'; simpl; tauto).
  assert (forall n, In n ["HOURLYPressureTendencyIncr"; "HOURLYPressureTendencyDecr";
                          "HOURLYPressureTendencyCons"] ->
                    ~ In n (names d7)) as Fresh7.
  { intros n I. rewrite H7. intro J. apply in_app_or in J. destruct J as [J | J].
    - apply filter_In in J. destruct J as [J _]. revert J. apply Fresh'.
      simpl in *. tauto.
    - simpl in I, J. intuition (subst; discriminate). }
  apply encode_pressure_tendency_names in H8; try (apply Fresh7; simpl; tauto).
  rewrite H8, H7, filter_app, filter_twice, N, <- app_assoc. reflexivity.
Qed.

Lemma cleaned_columns_witness :
  names sample_cleaned =
  [ "HOURLYVISIBILITY"; "HOURLYDRYBULBTEMPF"; "HOURLYWETBULBTEMPF"; "HOURLYDewPointTempF";
    "HOURLYRelativeHumidity"; "HOURLYWindSpeed"; "HOURLYStationPressure";
    "HOURLYSeaLevelPressure"; "HOURLYPrecip"; "HOURLYAltimeterSetting" ]
  ++ derived_columns.
Proof.
  apply (cleaned_columns decimal_literal sample sample_cleaned).
  - vm_compute. reflexivity.
  - intros n I. simpl in I.
    repeat (destruct I as [<- | I];
            [vm_compute; intro J;
             repeat (destruct J as [J | J]; [discriminate J | ]); exact J | ]).
    destruct I.
Defined.

(** ** The sentinel (lines 49-61) *)

(** X6.  A cell that holds the sentinel ["*"] is NaN in the table that line 64
    resamples, in whichever column it stands and whatever the parser would
    have made of a ["*"]. *)
Theorem sentinel_missing
    (strtod : string -> option np.double)
    (raw : DataFrame pyobj) (d : DataFrame np.double)
    (n : string) (s : list pyobj) (i : nat) :
  normalize strtod raw = Ok d ->
  pd.lookup n (columns raw) = Some s ->
  nth_error s i = Some (PyStr "*") ->
  exists c, pd.lookup n (columns d) = Some c /\ nth_error c i = Some np.NaN.
Proof.
  unfold normalize. intros H L E.
  apply bind_Ok in H. destruct H as (d1 & H1 & H).
  apply bind_Ok in H. destruct H as (d2 & H2 & H3).
  destruct (replace_markers_Ok _ _ H1) as (precip & LP & SL).
  destruct (replace_markers_columns raw precip LP SL) as (d1' & E1 & _ & _ & L1 & O1).
  rewrite H1 in E1. injection E1 as <-.
  rewrite convert_to_float_Ok in H2. injection H2 as <-.
  apply bound_visibility_Ok in H3. destruct H3 as (v & LV & _ & LV' & O3).
  assert (exists c2, pd.lookup n (columns (pd.map_columns (map (coerced strtod)) d1)) = Some c2
                     /\ nth_error c2 i = Some np.NaN) as (c2 & L2 & E2).
  { unfold pd.map_columns. cbn [columns]. rewrite lookup_map.
    destruct (String.eqb "HOURLYPrecip" n) eqn:P.
    - apply String.eqb_eq in P. subst n. rewrite LP in L. injection L as <-.
      rewrite L1. cbn [option_map]. eexists. split; [reflexivity | ].
      rewrite !nth_error_map, E. reflexivity.
    - rewrite (O1 n P), L. cbn [option_map]. eexists. split; [reflexivity | ].
      unfold pd.replace. rewrite !nth_error_map, E. reflexivity. }
  destruct (String.eqb "HOURLYVISIBILITY" n) eqn:V.
  - apply String.eqb_eq in V. subst n. rewrite LV in L2. injection L2 as <-.
    eexists. split; [exact LV' | ].
    rewrite mask_set_map, nth_error_map, E2. reflexivity.
  - exists c2. split; [ | exact E2]. now rewrite (O3 n V).
Qed.

Lemma sentinel_missing_witness :
  exists c,
    pd.lookup "HOURLYVISIBILITY" (columns sample_normalized) = Some c /\
    nth_error c 0 = Some np.NaN.
Proof.
  apply (sentinel_missing decimal_literal sample sample_normalized "HOURLYVISIBILITY"
           [PyStr "*"; PyStr "5.00"; PyStr "12.00"; PyStr "10.00"; PyStr "8.00"] 0).
  - vm_compute. reflexivity.
  - reflexivity.
  - reflexivity.
Defined.

(** ** The shape of the cleaned table *)

Lemma tl_length {A B : Type} (l : list A) (l' : list B) :
  List.length l = List.length l' -> List.length (tl l) = List.length (tl l').
Proof. destruct l, l'; simpl; congruence. Qed.

Lemma fill_rectangular
    (strtod : string -> option np.double)
    (raw : DataFrame pyobj) (d : DataFrame np.double) :
  fill strtod raw = Ok d ->
  forall n s, pd.lookup n (columns d) = Some s -> List.length s = List.length (index d).
Proof.
  intros F n s L.
  destruct (fill_Ok _ _ _ F) as (normalized & filled & _ & IM & _ & If & Id & _ & LD).
  rewrite LD in L. destruct (pd.lookup n (columns filled)) as [s0 | ] eqn:L0;
    [ | discriminate].
  injection L as <-. rewrite Id. apply tl_length.
  apply (interpolate_missing_lengths (downsample normalized) filled) with (n := n); auto.
  apply downsample_lengths.
Qed.

(** X7.  Every column of the cleaned table, the derived ones included, has one
    value for each row label. *)
Theorem cleaned_rectangular
    (strtod : string -> option np.double)
    (raw : DataFrame pyobj) (out : DataFrame np.double)
    (n : string) (s : list np.double) :
  clean strtod raw = Ok out ->
  pd.lookup n (columns out) = Some s ->
  List.length s = List.length (index out).
Proof.
  intros C L. unfold clean in C.
  apply bind_Ok in C. destruct C as (d & F & C).
  apply bind_Ok in C. destruct C as (d7 & H7 & H8).
  pose proof (fill_rectangular strtod raw d F) as R.
  destruct (encode_wind_direction_Ok _ _ H7) as (direction & LD).
  destruct (encode_wind_direction_columns _ _ LD) as (d7' & E7 & I7 & LS & LC & LN & K7).
  rewrite H7 in E7. injection E7 as <-.
  destruct (encode_pressure_tendency_Ok _ _ H8) as (tendency & LT).
  destruct (encode_pressure_tendency_columns _ _ LT)
    as (out' & E8 & I8 & LI & LDc & LCo & LNo & K8).
  rewrite H8 in E8. injection E8 as <-.
  rewrite I8, I7.
  assert (List.length tendency = List.length (index d)) as RT.
  { apply (R "HOURLYPressureTendency"). now rewrite <- K7 by reflexivity. }
  destruct (String.eqb "HOURLYPressureTendency" n) eqn:N1.
  { apply String.eqb_eq in N1. subst n. congruence. }
  destruct (String.eqb "HOURLYPressureTendencyIncr" n) eqn:N2.
  { apply String.eqb_eq in N2. subst n. rewrite LI in L. injection L as <-.
    now rewrite length_map. }
  destruct (String.eqb "HOURLYPressureTendencyDecr" n) eqn:N3.
  { apply String.eqb_eq in N3. subst n. rewrite LDc in L. injection L as <-.
    now rewrite length_map. }
  destruct (String.eqb "HOURLYPressureTendencyCons" n) eqn:N4.
  { apply String.eqb_eq in N4. subst n. rewrite LCo in L. injection L as <-.
    now rewrite length_map. }
  rewrite (K8 n N1 N2 N3 N4) in L.
  destruct (String.eqb "HOURLYWindDirection" n) eqn:N5.
  { apply String.eqb_eq in N5. subst n. congruence. }
  destruct (String.eqb "HOURLYWindDirectionSin" n) eqn:N6.
  { apply String.eqb_eq in N6. subst n. rewrite LS in L. injection L as <-.
    rewrite length_map. now apply (R "HOURLYWindDirection"). }
  destruct (String.eqb "HOURLYWindDirectionCos" n) eqn:N7.
  { apply String.eqb_eq in N7. subst n. rewrite LC in L. injection L as <-.
    rewrite length_map. now apply (R "HOURLYWindDirection"). }
  rewrite (K7 n N5 N6 N7) in L. now apply (R n).
Qed.

Lemma cleaned_rectangular_witness :
  List.length (column sample_cleaned "HOURLYWindDirectionSin")
  = List.length (index sample_cleaned).
Proof.
  apply (cleaned_rectangular decimal_literal sample sample_cleaned "HOURLYWindDirectionSin").
  - vm_compute. reflexivity.
  - vm_compute. reflexivity.
Defined.

(** ** The rows of the cleaned table (lines 63-64 and 69) *)

Lemma last_cons_default {A : Type} (l : list A) (a d : A) : last (a :: l) d = last l a.
Proof.
  revert a d. induction l as [ | b l IH]; intros a d; [reflexivity | ].
  change (last (a :: b :: l) d) with (last (b :: l) d). now rewrite !IH.
Qed.

Lemma sorted_last_max (l : list Z) (t0 : Z) :
  StronglySorted (fun a b : Z => (a <= b)%Z) (t0 :: l) ->
  forall t, In t (t0 :: l) -> (t <= last l t0)%Z.
Proof.
  revert t0. induction l as [ | t1 l IH]; intros t0 S t I.
  - destruct I as [<- | []]. simpl. lia.
  - apply StronglySorted_inv in S. destruct S as [S F].
    rewrite last_cons_default.
    destruct I as [<- | I].
    + inversion F as [ | ? ? Le _]; subst.
      specialize (IH t1 S t1 (or_introl eq_refl)). lia.
    + now apply IH.
Qed.

(** The bins run from the bin of the earliest row to the bin of the latest. *)
Lemma bins_min_max (freq : Z) (ts : list Timestamp) (t_min t_max : Timestamp) :
  (0 < freq)%Z ->
  In t_min ts -> In t_max ts ->
  (forall t, In t ts -> (t_min <= t <= t_max)%Z) ->
  pd.bins freq ts =
  map (fun i => (pd.bin_of freq t_min + Z.of_nat i)%Z)
      (seq 0 (S (Z.to_nat (pd.bin_of freq t_max - pd.bin_of freq t_min)))).
Proof.
  intros F Imin Imax B. unfold pd.bins.
  match goal with
  | |- context [pd.sort_rows ?key ts] => set (sorted := pd.sort_rows key ts)
  end.
  assert (Permutation sorted ts) as Pm by apply sort_rows_perm.
  assert (StronglySorted (fun a b : Z => (a <= b)%Z) sorted) as St
    by apply (sort_rows_sorted (fun t : Z => t)).
  destruct sorted as [ | t0 tl].
  - apply Permutation_nil in Pm. subst ts. destruct Imin.
  - assert (t0 = t_min) as ->.
    { assert (In t0 ts) as I0 by (eapply Permutation_in; [exact Pm | now left]).
      assert (In t_min (t0 :: tl)) as I1
        by (eapply Permutation_in; [symmetry; exact Pm | exact Imin]).
      apply B in I0. destruct I1 as [E | I1]; [exact E | ].
      apply StronglySorted_inv in St. destruct St as [_ Fa].
      rewrite Forall_forall in Fa. specialize (Fa _ I1). unfold Timestamp in *. lia. }
    assert (last tl t_min = t_max) as ->.
    { assert (In (last tl t_min) ts) as I0
        by (eapply Permutation_in; [exact Pm | apply last_In]).
      assert (In t_max (t_min :: tl)) as I1
        by (eapply Permutation_in; [symmetry; exact Pm | exact Imax]).
      apply B in I0. apply (sorted_last_max tl t_min St) in I1.
      unfold Timestamp in *. lia. }
    cbv zeta. do 2 f_equal.
    assert (pd.bin_of freq t_min <= pd.bin_of freq t_max)%Z.
    { apply Z.div_le_mono; [lia | ]. apply (B t_min Imin). }
    lia.
Qed.

Lemma cleaned_index
    (strtod : string -> option np.double)
    (raw : DataFrame pyobj) (out : DataFrame np.double) :
  clean strtod raw = Ok out ->
  index out = tl (map (fun b => (b * pd.hour)%Z) (pd.bins pd.hour (index raw))).
Proof.
  intro C.
  destruct (clean_Ok _ _ _ C) as (d & _ & _ & F & _ & _ & Iout & _).
  destruct (fill_Ok _ _ _ F) as (normalized & filled & N & _ & _ & If & Id & _).
  destruct (normalize_names _ _ _ N) as [_ In].
  now rewrite Iout, Id, If, downsample_index, In.
Qed.

(** X8.  The labels of the cleaned table are the hours after the hour of the
    earliest observation up to the hour of the latest one, each once and in
    order, whatever the order and the number of the observations: as many
    rows as the two hours are apart. *)
Theorem cleaned_labels
    (strtod : string -> option np.double)
    (raw : DataFrame pyobj) (out : DataFrame np.double) (t_min t_max : Timestamp) :
  clean strtod raw = Ok out ->
  In t_min (index raw) -> In t_max (index raw) ->
  (forall t, In t (index raw) -> (t_min <= t <= t_max)%Z) ->
  index out =
  map (fun i => ((pd.bin_of pd.hour t_min + 1 + Z.of_nat i) * pd.hour)%Z)
      (seq 0 (Z.to_nat (pd.bin_of pd.hour t_max - pd.bin_of pd.hour t_min))).
Proof.
  intros C Imin Imax B. rewrite (cleaned_index strtod raw out C).
  rewrite (bins_min_max pd.hour (index raw) t_min t_max) by (auto; reflexivity).
  cbn [seq map tl]. rewrite <- seq_shift, !map_map. apply map_ext.
  intro i. f_equal. lia.
Qed.

Lemma cleaned_labels_witness :
  index sample_cleaned = [minute 60; minute 120; minute 180; minute 240].
Proof.
  apply (cleaned_labels decimal_literal sample sample_cleaned (minute 10) (minute 255)).
  - vm_compute. reflexivity.
  - simpl. tauto.
  - simpl. tauto.
  - intros t I. simpl in I.
    repeat (destruct I as [<- | I]; [split; vm_compute; discriminate | ]).
    destruct I.
Defined.

(** X9.  When every observation falls in the same hour the cleaned table has no
    row: it is written all the same, and a verbose run then raises IndexError
    in its report, after the file, where the other run ends normally. *)
Theorem single_hour_run
    (strtod : string -> option np.double) (getsizeof : DataFrame np.double -> Z)
    (path : string) (raw : DataFrame pyobj) (out : DataFrame np.double) :
  clean strtod raw = Ok out ->
  str.count "." path = 1 ->
  (forall t t', In t (index raw) -> In t' (index raw) ->
                pd.bin_of pd.hour t = pd.bin_of pd.hour t') ->
  index out = [] /\
  (exists file,
      files_written (main strtod getsizeof (mkNamespace path true) raw) = [(file, out)]) /\
  snd (main strtod getsizeof (mkNamespace path true) raw) = Raise IndexError /\
  snd (main strtod getsizeof (mkNamespace path false) raw) = Ok tt.
Proof.
  intros C P Same.
  assert (index out = []) as E.
  { rewrite (cleaned_index strtod raw out C). unfold pd.bins.
    match goal with
    | |- context [pd.sort_rows ?key (index raw)] =>
        set (sorted := pd.sort_rows key (index raw))
    end.
    assert (Permutation sorted (index raw)) as Pm by apply sort_rows_perm.
    destruct sorted as [ | t0 tl]; [reflexivity | ].
    cbv zeta.
    rewrite (Same (last tl t0) t0).
    - rewrite Z.sub_diag. reflexivity.
    - eapply Permutation_in; [exact Pm | apply last_In].
    - eapply Permutation_in; [exact Pm | now left]. }
  apply output_path_Ok_iff in P. destruct P as (file & P).
  split; [exact E | ]. split; [ | split].
  - exists file. rewrite main_files. cbn [filepath]. now rewrite C, P.
  - rewrite main_status. cbn [filepath verbose]. rewrite C, P.
    unfold report, pd.first_label, bindIO, emit, lift. now rewrite E.
  - rewrite main_status. cbn [filepath verbose]. now rewrite C, P.
Qed.

Lemma single_hour_run_witness :
  index (or_empty (clean decimal_literal sample_one_hour)) = [] /\
  snd (main decimal_literal no_size (mkNamespace "jfk_weather.csv" true) sample_one_hour)
  = Raise IndexError.
Proof.
  destruct (single_hour_run decimal_literal no_size "jfk_weather.csv" sample_one_hour
              (or_empty (clean decimal_literal sample_one_hour)))
    as (E & _ & V & _).
  - vm_compute. reflexivity.
  - reflexivity.
  - intros t t' I I'. simpl in I, I'.
    destruct I as [<- | [<- | []]]; destruct I' as [<- | [<- | []]]; reflexivity.
  - split; assumption.
Defined.

(** ** What gap filling keeps and what it fills (lines 66-68) *)

Lemma ffill_from_keeps (s : list np.double) (prev : np.double) (i : nat) (x : np.double) :
  nth_error s i = Some x -> np.isnan x = false ->
  nth_error (pd.ffill_from prev s) i = Some x.
Proof.
  revert prev i. induction s as [ | y tl IH]; intros prev [ | i] E V; try discriminate.
  - simpl in E. injection E as ->. simpl. now rewrite V.
  - simpl in *. destruct (np.isnan y); simpl; now apply IH.
Qed.

Lemma interpolate_from_keeps (s : list np.double) (prev : option np.double) (k i : nat)
    (x : np.double) :
  nth_error s i = Some x -> np.isnan x = false ->
  nth_error (pd.interpolate_from prev k s) i = Some x.
Proof.
  revert prev k i. induction s as [ | y tl IH]; intros prev k [ | i] E V; try discriminate.
  - simpl in E. injection E as ->. simpl. now rewrite V.
  - simpl in *. destruct (np.isnan y); simpl; now apply IH.
Qed.

(** X10.  Gap filling never changes a value that is not NaN: a valid value of the
    shifted table stands unchanged, one row up, in the table of line 69. *)
Theorem observed_values_kept
    (strtod : string -> option np.double)
    (raw : DataFrame pyobj) (normalized d : DataFrame np.double)
    (n : string) (s c : list np.double) (i : nat) (x : np.double) :
  normalize strtod raw = Ok normalized ->
  fill strtod raw = Ok d ->
  pd.lookup n (columns (downsample normalized)) = Some s ->
  pd.lookup n (columns d) = Some c ->
  nth_error s (S i) = Some x ->
  np.isnan x = false ->
  nth_error c i = Some x.
Proof.
  intros N F L Lc E V.
  destruct (fill_columns strtod raw normalized d N F) as [(t & LT & LP) Others].
  destruct (String.eqb "HOURLYPressureTendency" n) eqn:P.
  - apply String.eqb_eq in P. subst n. rewrite L in LT. injection LT as <-.
    rewrite LP in Lc. injection Lc as <-. rewrite nth_error_tail.
    now apply ffill_from_keeps.
  - rewrite (Others n P), L in Lc. injection Lc as <-. rewrite nth_error_tail.
    now apply interpolate_from_keeps.
Qed.

Lemma observed_values_kept_witness :
  nth_error (column sample_filled "HOURLYWindSpeed") 1 = Some (np.of_Z 0).
Proof.
  apply (observed_values_kept decimal_literal sample sample_normalized sample_filled
           "HOURLYWindSpeed" (column (downsample sample_normalized) "HOURLYWindSpeed")).
  - vm_compute. reflexivity.
  - vm_compute. reflexivity.
  - vm_compute. reflexivity.
  - vm_compute. reflexivity.
  - vm_compute. reflexivity.
  - reflexivity.
Defined.

Lemma ffill_valid_app (pre : list np.double) (a : np.double) (rest : list np.double)
    (prev : np.double) :
  np.isnan a = false ->
  exists head,
    List.length head = List.length pre /\
    pd.ffill_from prev (pre ++ a :: rest) = head ++ a :: pd.ffill_from a rest.
Proof.
  intro V. revert prev. induction pre as [ | x pre IH]; intro prev.
  - exists []. simpl. now rewrite V.
  - cbn [app pd.ffill_from]. destruct (np.isnan x).
    + destruct (IH prev) as (head & L & ->).
      exists (prev :: head). split; [simpl; now rewrite L | reflexivity].
    + destruct (IH x) as (head & L & ->).
      exists (x :: head). split; [simpl; now rewrite L | reflexivity].
Qed.

Lemma ffill_trailing (a : np.double) (k : nat) :
  pd.ffill_from a (repeat np.NaN k) = repeat a k.
Proof. induction k as [ | k IH]; simpl; auto. now rewrite IH. Qed.

Lemma next_valid_trailing (k : nat) : pd.next_valid (repeat np.NaN k) = None.
Proof. induction k as [ | k IH]; simpl; auto. now rewrite IH. Qed.

Lemma interpolate_trailing (a : np.double) (k j : nat) :
  pd.interpolate_from (Some a) j (repeat np.NaN k) = repeat a k.
Proof.
  revert j. induction k as [ | k IH]; intro j; simpl; auto.
  now rewrite next_valid_trailing, IH.
Qed.

(** X11.  A gap after the last valid value of a column is filled with that value,
    in the tendency column and in the interpolated columns alike: the table
    of line 69 repeats the last observation down to its last row. *)
Theorem trailing_gap_repeats_last
    (strtod : string -> option np.double)
    (raw : DataFrame pyobj) (normalized d : DataFrame np.double)
    (n : string) (pre c : list np.double) (a : np.double) (k j : nat) :
  normalize strtod raw = Ok normalized ->
  fill strtod raw = Ok d ->
  pd.lookup n (columns (downsample normalized)) = Some (pre ++ a :: repeat np.NaN k) ->
  pd.lookup n (columns d) = Some c ->
  np.isnan a = false ->
  j < k ->
  nth_error c (List.length pre + j) = Some a.
Proof.
  intros N F L Lc V J.
  destruct (fill_columns strtod raw normalized d N F) as [(t & LT & LP) Others].
  assert (forall head : list np.double,
             List.length head = List.length pre ->
             nth_error (tl (head ++ a :: repeat a k)) (List.length pre + j) = Some a) as K.
  { intros head Lh. rewrite nth_error_tail, <- Lh.
    replace (S (List.length head + j)) with (List.length head + S j) by lia.
    rewrite nth_error_app2 by lia.
    replace (List.length head + S j - List.length head) with (S j) by lia.
    simpl. apply nth_error_repeat. exact J. }
  destruct (String.eqb "HOURLYPressureTendency" n) eqn:P.
  - apply String.eqb_eq in P. subst n. rewrite L in LT. injection LT as <-.
    rewrite LP in Lc. injection Lc as <-. unfold pd.ffill.
    destruct (ffill_valid_app pre a (repeat np.NaN k) np.NaN V) as (head & Lh & ->).
    rewrite ffill_trailing. now apply K.
  - rewrite (Others n P), L in Lc. injection Lc as <-. unfold pd.interpolate_linear.
    destruct (interpolate_valid_app pre a (repeat np.NaN k) None 0 V) as (head & Lh & ->).
    rewrite interpolate_trailing. now apply K.
Qed.

(** The precipitation of the sample: NaN, 0.00, 0.02 and two hours without
    a reading after the shift. *)
Lemma trailing_gap_repeats_last_witness :
  nth_error (column sample_filled "HOURLYPrecip") 3
  = Some (np.Fin (np.Rat (Qmake 2 100))).
Proof.
  apply (trailing_gap_repeats_last decimal_literal sample sample_normalized sample_filled
           "HOURLYPrecip" [np.NaN; np.Fin (np.Rat (Qmake 0 100))]
           (column sample_filled "HOURLYPrecip") (np.Fin (np.Rat (Qmake 2 100))) 2 1).
  - vm_compute. reflexivity.
  - vm_compute. reflexivity.
  - vm_compute. reflexivity.
  - vm_compute. reflexivity.
  - reflexivity.
  - lia.
Defined.

Lemma interpolate_from_finite (s : list np.double) (u : np.finite) (k : nat) :
  forallb finite_or_nan s = true -> 0 < k ->
  Forall (fun x => np.isnan x = false) (pd.interpolate_from (Some (np.Fin u)) k s).
Proof.
  revert u k. induction s as [ | x tl IH]; intros u k F K; simpl; [constructor | ].
  simpl in F. apply andb_true_iff in F. destruct F as [Fx F].
  destruct (np.isnan x) eqn:N.
  - constructor; [ | apply IH; auto].
    destruct (pd.next_valid tl) as [[d b] | ] eqn:NV; [ | reflexivity].
    apply next_valid_Some in NV. destruct NV as (E & Vb & _).
    assert (finite_or_nan b = true) as Fb.
    { apply nth_error_In in E. rewrite forallb_forall in F. now apply F. }
    destruct b as [ | | | ub]; try discriminate.
    destruct (interp_point_finite u ub (k + S d) k) as (w & -> & _); [lia | reflexivity].
  - constructor; [exact N | ].
    destruct x as [ | | | ux]; try discriminate. apply IH; auto.
Qed.

Lemma interpolate_leading (s : list np.double) (i j : nat) :
  forallb finite_or_nan s = true ->
  i <= j ->
  nth_error (pd.interpolate_linear s) j = Some np.NaN ->
  nth_error (pd.interpolate_linear s) i = Some np.NaN.
Proof.
  unfold pd.interpolate_linear. generalize 0 as k. revert i j.
  induction s as [ | x tl IH]; intros i j k F Le E.
  - destruct j; discriminate.
  - simpl in F. apply andb_true_iff in F. destruct F as [Fx F].
    simpl in *. destruct (np.isnan x) eqn:N.
    + destruct i as [ | i]; [reflexivity | ].
      destruct j as [ | j]; [lia | ]. simpl in *. apply (IH i j (S k)); auto. lia.
    + exfalso. destruct x as [ | | | ux]; try discriminate.
      destruct j as [ | j]; [discriminate | ]. simpl in E.
      pose proof (interpolate_from_finite tl ux 1 F Nat.lt_0_1) as Fin.
      apply nth_error_In in E. rewrite Forall_forall in Fin.
      specialize (Fin _ E). discriminate.
Qed.

(** X12.  In a column without infinities no gap is left after the first valid
    value: the rows of the table of line 69 in which it is missing are leading
    rows. *)
Theorem gaps_only_leading
    (strtod : string -> option np.double)
    (raw : DataFrame pyobj) (normalized d : DataFrame np.double)
    (n : string) (s c : list np.double) (i j : nat) :
  normalize strtod raw = Ok normalized ->
  fill strtod raw = Ok d ->
  pd.lookup n (columns (downsample normalized)) = Some s ->
  pd.lookup n (columns d) = Some c ->
  forallb finite_or_nan s = true ->
  i <= j ->
  nth_error c j = Some np.NaN ->
  nth_error c i = Some np.NaN.
Proof.
  intros N F L Lc Fs Le.
  destruct (fill_columns strtod raw normalized d N F) as [(t & LT & LP) Others].
  destruct (String.eqb "HOURLYPressureTendency" n) eqn:P.
  - apply String.eqb_eq in P. subst n. rewrite L in LT. injection LT as <-.
    rewrite LP in Lc. injection Lc as <-. rewrite !nth_error_tail.
    apply ffill_leading. lia.
  - rewrite (Others n P), L in Lc. injection Lc as <-. rewrite !nth_error_tail.
    apply interpolate_leading; auto. lia.
Qed.

(** The sea level pressure of [sample_late]: the third row of the table of
    line 69 is missing, and so are the rows before it. *)
Lemma gaps_only_leading_witness :
  nth_error (column (or_empty (fill decimal_literal sample_late)) "HOURLYSeaLevelPressure") 0
  = Some np.NaN.
Proof.
  apply (gaps_only_leading decimal_literal sample_late
           (or_empty (normalize decimal_literal sample_late))
           (or_empty (fill decimal_literal sample_late))
           "HOURLYSeaLevelPressure"
           (column (downsample (or_empty (normalize decimal_literal sample_late)))
                   "HOURLYSeaLevelPressure")
           (column (or_empty (fill decimal_literal sample_late)) "HOURLYSeaLevelPressure")
           0 2).
  - vm_compute. reflexivity.
  - vm_compute. reflexivity.
  - vm_compute. reflexivity.
  - vm_compute. reflexivity.
  - vm_compute. reflexivity.
  - lia.
  - vm_compute. reflexivity.
Defined.

(** ** The range of the wind features (lines 71-73) *)

Lemma radians_special (x : np.double) :
  (forall u, x <> np.Fin u) -> np.sin (radians x) = np.NaN /\ np.cos (radians x) = np.NaN.
Proof.
  intro NF. unfold radians, np.pi, np.of_Z.
  assert (np.div (np.mul (np.Fin (np.Rat (inject_Z 2))) (np.Fin (np.Real PI)))
                 (np.Fin (np.Rat (inject_Z 360)))
          = np.Fin (np.Real (Q2R (inject_Z 2) * PI / Q2R (inject_Z 360)))) as ->
    by reflexivity.
  destruct x as [ | | | u]; [auto | | | exfalso; now apply (NF u)];
    cbn [np.mul]; unfold np.inf_like;
    destruct (np.fin_eqb _ np.zero); auto;
    destruct (Bool.eqb _ _); auto.
Qed.

(** X13.  In every row of the cleaned table the two wind features are both NaN
    (where the direction is missing or infinite) or both finite and within
    [-1, 1]. *)
Theorem wind_features_range
    (strtod : string -> option np.double)
    (raw : DataFrame pyobj) (out : DataFrame np.double)
    (sines cosines : list np.double) (i : nat) (a b : np.double) :
  clean strtod raw = Ok out ->
  pd.getitem out "HOURLYWindDirectionSin" = Ok sines ->
  pd.getitem out "HOURLYWindDirectionCos" = Ok cosines ->
  nth_error sines i = Some a ->
  nth_error cosines i = Some b ->
  (a = np.NaN /\ b = np.NaN) \/
  (exists s c,
      a = np.Fin s /\ b = np.Fin c /\
      (-1 <= np.toR s <= 1)%R /\ (-1 <= np.toR c <= 1)%R).
Proof.
  intros C GS GC Ea Eb. apply getitem_Ok in GS, GC.
  destruct (clean_Ok _ _ _ C) as (d & direction & t & _ & _ & _ & _ & LS & LC & _).
  rewrite LS in GS. rewrite LC in GC. injection GS as <-. injection GC as <-.
  rewrite nth_error_map in Ea, Eb.
  destruct (nth_error direction i) as [x | ]; [ | discriminate].
  injection Ea as <-. injection Eb as <-.
  destruct x as [ | | | u].
  - left. apply radians_special. discriminate.
  - left. apply radians_special. discriminate.
  - left. apply radians_special. discriminate.
  - right. destruct (wind_features u) as (s & c & -> & -> & Vs & Vc & _).
    exists s, c. rewrite Vs, Vc. repeat split; auto;
      first [apply SIN_bound | apply COS_bound].
Qed.

(** The first row of the cleaned sample. *)
Lemma wind_features_range_witness :
  (nth 0 (column sample_cleaned "HOURLYWindDirectionSin") np.NaN = np.NaN /\
   nth 0 (column sample_cleaned "HOURLYWindDirectionCos") np.NaN = np.NaN) \/
  (exists s c,
      nth 0 (column sample_cleaned "HOURLYWindDirectionSin") np.NaN = np.Fin s /\
      nth 0 (column sample_cleaned "HOURLYWindDirectionCos") np.NaN = np.Fin c /\
      (-1 <= np.toR s <= 1)%R /\ (-1 <= np.toR c <= 1)%R).
Proof.
  apply (wind_features_range decimal_literal sample sample_cleaned
           (column sample_cleaned "HOURLYWindDirectionSin")
           (column sample_cleaned "HOURLYWindDirectionCos") 0).
  - exact sample_clean.
  - vm_compute. reflexivity.
  - vm_compute. reflexivity.
  - vm_compute. reflexivity.
  - vm_compute. reflexivity.
Defined.

(* ================================================================== *)
(** * The pipeline on binary64 numbers *)

(** ** binary64 numbers *)

Lemma SFcompare_refl (s : spec_float) :
  s <> S754_nan -> SFcompare s s = Some Eq.
Proof.
  destruct s as [z | i | | sg m e]; intro H; try reflexivity; try contradiction.
  - now destruct i.
  - simpl. rewrite Z.compare_refl.
    change (Pos.compare_cont Eq m m) with (Pos.compare m m).
    rewrite Pos.compare_refl. now destruct sg.
Qed.


Lemma isnan_spec (x : float) : float64.isnan x = true <-> Prim2SF x = S754_nan.
Proof.
  unfold float64.isnan, is_nan. rewrite FloatAxioms.eqb_spec. unfold SFeqb.
  split.
  - intro H. destruct (Prim2SF x) eqn:E; auto;
      rewrite SFcompare_refl in H by discriminate; discriminate.
  - intros ->. reflexivity.
Qed.



Lemma isnan_false_spec (x : float) : float64.isnan x = false <-> Prim2SF x <> S754_nan.
Proof.
  rewrite <- isnan_spec. destruct (float64.isnan x); split; congruence.
Qed.



Lemma within_valid64 (x : float) : float64.within x = true -> float64.isnan x = false.
Proof.
  unfold float64.within. rewrite andb_true_iff, FloatAxioms.leb_spec. intros [H _].
  apply isnan_false_spec. intro E. rewrite E in H. discriminate.
Qed.





(** ** Forward fill and interpolation in binary64, value by value *)














(** *** Where each stage leaves a column *)










(** *** The two encodings *)






(** ** Gap filling in binary64 (lines 66-69) *)



(** Between two infinities of one sign, and between an infinity and a finite
    value, numpy's [interp] gives the infinity, not NaN; between equal values
    it gives that value. *)
Example interp_infinite :
  float64.interpolate_linear [infinity; float64.nan; infinity]
  = [infinity; infinity; infinity] /\
  float64.interpolate_linear [infinity; float64.nan; float64.nan; 5%float]
  = [infinity; infinity; infinity; 5%float] /\
  float64.interpolate_linear [3%float; float64.nan; float64.nan; 3%float]
  = [3%float; 3%float; 3%float; 3%float].
Proof. repeat split; vm_compute; reflexivity. Qed.

(** ** The visibility in binary64 (lines 60-61 and 63-69) *)


Section Kept.
(** A property of cells that NaN has. *)
Variable P : float -> Prop.
Hypothesis P_nan : P float64.nan.



End Kept.

Section Observed.
(** The values line 61 leaves in the column. *)
Variable observed : list float.


End Observed.






(** ** Sine and cosine up to an error *)






(** ** Bounds on pi *)






(** ** The wind direction in binary64 (lines 71-74) *)




(** The library's part of the hypothesis can be met: at the angle 0 the
    series are exact. *)
Example accurate_at_zero :
  float64.accurate float64.sin_series float64.cos_series 0 (float64.radians 0).
Proof.
  unfold float64.accurate.
  split; [vm_compute; reflexivity | ]. split; [vm_compute; reflexivity | ].
  unfold float64.toR.
  assert (float64.toQ (float64.sin_series (float64.radians 0)) == 0)%Q as S
    by (vm_compute; reflexivity).
  assert (float64.toQ (float64.cos_series (float64.radians 0)) == 1)%Q as C
    by (vm_compute; reflexivity).
  assert (float64.toQ (float64.radians 0) == 0)%Q as Z by (vm_compute; reflexivity).
  apply Qeq_eqR in S, C, Z. rewrite S, C, Z.
  assert (Q2R 0 = 0)%R as -> by (unfold Q2R; simpl; lra).
  assert (Q2R 1 = 1)%R as -> by (unfold Q2R; simpl; lra).
  rewrite sin_0, cos_0, !Rminus_diag, Rabs_R0. lra.
Qed.
